(** * Datwatch: a debounced watcher of .dat files and its LR-to-EPIC converter

    Shallow embedding of [src/Datwatch/Datwatch.py].

    Modelling conventions.
    - Python's [time.time()], [os.path.getmtime] and [os.path.getctime] return
      float seconds; here they are integers counting microseconds ([Z]).
      Only comparisons and differences of these values are used by the
      watcher, and those are preserved by the scaling.
    - A naive [datetime] is the number of microseconds since
      0001-01-01T00:00:00 (the proleptic Gregorian calendar of Python's
      [datetime]); valid values lie in [0, MAXUS].
    - The local time zone is a fixed offset [tz] (no daylight saving).
    - A float offset parsed by [float()] is kept as an exact decimal; it is
      rounded half-to-even to microseconds when a [timedelta] is built.
    - Python dicts are association lists with Python's insertion order.
    - Exceptions are the values of [exc]; a small state-and-exception
      monad [M] threads the program state, and effects performed before an
      exception is raised are kept, as in Python.
    - Directories are not modelled: [os.makedirs] always succeeds; an output
      file listed in [out_ro] cannot be opened for appending.
    - Logging is modelled by a list of structured log records. *)

From Stdlib Require Import ZArith String Ascii List Bool Lia.
Import ListNotations.
Open Scope string_scope.
Open Scope Z_scope.

(** ** Python exceptions and the state-and-exception monad *)

Inductive exc : Type :=
| FileNotFoundError
| PermissionError
| ValueError
| OverflowError.

Definition is_FileNotFoundError (e : exc) : bool :=
  match e with FileNotFoundError => true | _ => false end.
Definition is_ValueError (e : exc) : bool :=
  match e with ValueError => true | _ => false end.
(** [except Exception] catches every exception of the model. *)
Definition is_Exception (_ : exc) : bool := true.

(** ** Python dicts (insertion ordered) *)

Definition dict (V : Type) := list (string * V).

Fixpoint dict_get {V} (d : dict V) (k : string) : option V :=
  match d with
  | [] => None
  | (k', v) :: r => if String.eqb k k' then Some v else dict_get r k
  end.

(** [d.get(k, default)] *)
Definition dict_get_default {V} (d : dict V) (k : string) (dflt : V) : V :=
  match dict_get d k with Some v => v | None => dflt end.

(** [d[k] = v]: an existing key keeps its position, a new key goes last. *)
Fixpoint dict_set {V} (d : dict V) (k : string) (v : V) : dict V :=
  match d with
  | [] => [(k, v)]
  | (k', v') :: r => if String.eqb k k' then (k', v) :: r else (k', v') :: dict_set r k v
  end.

(** [d.pop(k, None)] *)
Fixpoint dict_pop {V} (d : dict V) (k : string) : dict V :=
  match d with
  | [] => []
  | (k', v') :: r => if String.eqb k k' then dict_pop r k else (k', v') :: dict_pop r k
  end.

Definition dict_keys {V} (d : dict V) : list string := map fst d.

(** ** Files, log records and the program state *)

Record FileInfo := mkFileInfo {
  f_mtime : Z;          (** modification time, epoch microseconds *)
  f_ctime : Z;          (** creation time, epoch microseconds *)
  f_content : string;   (** decoded text content *)
  f_stat_ok : bool;     (** false: [os.stat] fails with a [PermissionError] *)
  f_readable : bool     (** false: [open(..., 'r')] fails with a [PermissionError] *)
}.

Inductive LogEntry : Type :=
| LogDetected (path : string)                    (** INFO  Detected new .dat file *)
| LogChecking (path : string) (last : Z)         (** INFO  Checking file *)
| LogProcessing (path : string)                  (** INFO  Processing file *)
| LogDisappeared (path : string)                 (** WARNING File disappeared before processing *)
| LogErrProcessing (path : string)               (** ERROR Error processing *)
| LogSkipInvalid (line : string) (path : string) (** WARNING Skipping invalid line *)
| LogAppended (n : nat) (out_path : string)      (** INFO  Appended n lines *)
| LogFailedConvert (path : string).              (** ERROR Failed to convert file *)

Record State := mkState {
  fs : dict FileInfo;              (** the watched directory *)
  out : dict string;               (** output files and their contents *)
  out_ro : list string;            (** output files that cannot be opened *)
  clock : Z;                       (** [time.time()], epoch microseconds *)
  tz : Z;                          (** local time offset, microseconds *)
  file_timestamps : dict Z;        (** ActivityRecord *)
  processed_mtimes : dict Z;       (** ProcessedMarker *)
  logs : list LogEntry;            (** log records, newest first *)
  reads : list (string * Z)        (** ghost: each read of a source file, with
                                       the file's mtime at that read, newest first *)
}.

Definition set_fs (f : dict FileInfo -> dict FileInfo) (s : State) : State :=
  mkState (f (fs s)) (out s) (out_ro s) (clock s) (tz s) (file_timestamps s)
          (processed_mtimes s) (logs s) (reads s).
Definition set_out (f : dict string -> dict string) (s : State) : State :=
  mkState (fs s) (f (out s)) (out_ro s) (clock s) (tz s) (file_timestamps s)
          (processed_mtimes s) (logs s) (reads s).
Definition set_clock (f : Z -> Z) (s : State) : State :=
  mkState (fs s) (out s) (out_ro s) (f (clock s)) (tz s) (file_timestamps s)
          (processed_mtimes s) (logs s) (reads s).
Definition set_ts (f : dict Z -> dict Z) (s : State) : State :=
  mkState (fs s) (out s) (out_ro s) (clock s) (tz s) (f (file_timestamps s))
          (processed_mtimes s) (logs s) (reads s).
Definition set_marks (f : dict Z -> dict Z) (s : State) : State :=
  mkState (fs s) (out s) (out_ro s) (clock s) (tz s) (file_timestamps s)
          (f (processed_mtimes s)) (logs s) (reads s).
Definition set_logs (f : list LogEntry -> list LogEntry) (s : State) : State :=
  mkState (fs s) (out s) (out_ro s) (clock s) (tz s) (file_timestamps s)
          (processed_mtimes s) (f (logs s)) (reads s).
Definition set_reads (f : list (string * Z) -> list (string * Z)) (s : State) : State :=
  mkState (fs s) (out s) (out_ro s) (clock s) (tz s) (file_timestamps s)
          (processed_mtimes s) (logs s) (f (reads s)).

Definition M (A : Type) : Type := State -> (A + exc) * State.

Definition ret {A} (a : A) : M A := fun s => (inl a, s).
Definition bind {A B} (m : M A) (k : A -> M B) : M B :=
  fun s => match m s with
           | (inl a, s') => k a s'
           | (inr e, s') => (inr e, s')
           end.
Definition raise {A} (e : exc) : M A := fun s => (inr e, s).
Definition gets {A} (f : State -> A) : M A := fun s => (inl (f s), s).
Definition modify (f : State -> State) : M unit := fun s => (inl tt, f s).

(** [try: m except <sel>: h] *)
Definition try_except {A} (m : M A) (sel : exc -> bool) (h : exc -> M A) : M A :=
  fun s => match m s with
           | (inr e, s') => if sel e then h e s' else (inr e, s')
           | r => r
           end.

Notation "x <- m ;; k" := (bind m (fun x => k))
  (at level 61, m at next level, right associativity).

Definition log (e : LogEntry) : M unit := modify (set_logs (cons e)).

(** ** Python string operations *)

(** [str.isspace] on the ASCII range: \t \n \v \f \r, \x1c-\x1f and space. *)
Definition is_space (c : ascii) : bool :=
  let n := nat_of_ascii c in
  ((9 <=? n) && (n <=? 13))%nat || ((28 <=? n) && (n <=? 32))%nat.

Fixpoint lstrip_l (l : list ascii) : list ascii :=
  match l with
  | c :: r => if is_space c then lstrip_l r else l
  | [] => []
  end.

Definition strip_l (l : list ascii) : list ascii := rev (lstrip_l (rev (lstrip_l l))).

(** [s.strip()] *)
Definition strip (s : string) : string :=
  string_of_list_ascii (strip_l (list_ascii_of_string s)).

(** [s.split(sep)] for a one-character separator. *)
Fixpoint split_on (sep : ascii) (s : string) : list string :=
  match s with
  | EmptyString => [EmptyString]
  | String c r =>
      if Ascii.eqb c sep then EmptyString :: split_on sep r
      else match split_on sep r with
           | h :: t => String c h :: t
           | [] => [String c EmptyString]
           end
  end.

(** Text-mode reading translates \r\n and \r to \n (universal newlines). *)
Fixpoint translate_newlines (s : string) : string :=
  match s with
  | EmptyString => EmptyString
  | String c r =>
      if Ascii.eqb c "013"%char then
        match r with
        | String c' r' =>
            if Ascii.eqb c' "010"%char then String "010"%char (translate_newlines r')
            else String "010"%char (translate_newlines r)
        | EmptyString => String "010"%char EmptyString
        end
      else String c (translate_newlines r)
  end.

(** Lines of a translated text, each keeping its terminating \n. *)
Fixpoint split_lines_keep (s : string) : list string :=
  match s with
  | EmptyString => []
  | String c r =>
      if Ascii.eqb c "010"%char then String c EmptyString :: split_lines_keep r
      else match split_lines_keep r with
           | h :: t => String c h :: t
           | [] => [String c EmptyString]
           end
  end.

(** [f.readlines()] on a file opened in text mode. *)
Definition readlines (content : string) : list string :=
  split_lines_keep (translate_newlines content).

(** [s.endswith(suffix)] *)
Definition endswith (s suffix : string) : bool :=
  let n := String.length s in
  let k := String.length suffix in
  (k <=? n)%nat && String.eqb (substring (n - k) k s) suffix.

(** [posixpath.join(a, b)] *)
Definition path_join (a b : string) : string :=
  if String.prefix "/" b then b
  else if String.eqb a EmptyString then b
  else if endswith a "/" then a ++ b
  else a ++ "/" ++ b.

(** ** [float()] on a string *)

(** An IEEE 754 double: a finite one is (-1)^neg * m * 2^e with
    0 <= m < 2^53 and -1074 <= e <= 971. *)
Inductive pyfloat : Type :=
| PFinite (neg : bool) (m : Z) (e : Z)
| PInf (neg : bool)
| PNaN.

Definition is_digit (c : ascii) : bool :=
  let n := nat_of_ascii c in ((48 <=? n) && (n <=? 57))%nat.
Definition digit_val (c : ascii) : Z := Z.of_nat (nat_of_ascii c) - 48.

(** The rest of a [digitpart]: digit (["_"] digit)*; returns the value,
    the number of digits and the unconsumed input. *)
Fixpoint digitpart_tail (l : list ascii) (acc : Z) (n : Z) : Z * Z * list ascii :=
  match l with
  | [] => (acc, n, [])
  | c :: r =>
      if is_digit c then digitpart_tail r (acc * 10 + digit_val c) (n + 1)
      else if Ascii.eqb c "_"%char then
        match r with
        | d :: r' => if is_digit d then digitpart_tail r' (acc * 10 + digit_val d) (n + 1)
                     else (acc, n, l)
        | [] => (acc, n, l)
        end
      else (acc, n, l)
  end.

Definition digitpart (l : list ascii) : option (Z * Z * list ascii) :=
  match l with
  | c :: r => if is_digit c then Some (digitpart_tail r (digit_val c) 1) else None
  | [] => None
  end.

Definition starts_with_char (c : ascii) (l : list ascii) : option (list ascii) :=
  match l with
  | c' :: r => if Ascii.eqb c c' then Some r else None
  | [] => None
  end.

(** number ::= [digitpart] "." digitpart | digitpart ["."];
    returns the digits as an integer and the count of fraction digits. *)
Definition parse_number (l : list ascii) : option (Z * Z * list ascii) :=
  match digitpart l with
  | Some (i, _, r) =>
      match starts_with_char "." r with
      | Some r1 =>
          match digitpart r1 with
          | Some (f, k, r2) => Some (i * 10 ^ k + f, k, r2)
          | None => Some (i, 0, r1)
          end
      | None => Some (i, 0, r)
      end
  | None =>
      match starts_with_char "." l with
      | Some r1 =>
          match digitpart r1 with
          | Some (f, k, r2) => Some (f, k, r2)
          | None => None
          end
      | None => None
      end
  end.

Definition parse_sign (l : list ascii) : bool * list ascii :=
  match l with
  | c :: r => if Ascii.eqb c "-"%char then (true, r)
              else if Ascii.eqb c "+"%char then (false, r) else (false, l)
  | [] => (false, [])
  end.

(** exponent ::= ("e" | "E") [sign] digitpart *)
Definition parse_exponent (l : list ascii) : option (Z * list ascii) :=
  match l with
  | c :: r =>
      if Ascii.eqb c "e"%char || Ascii.eqb c "E"%char then
        let (neg, r1) := parse_sign r in
        match digitpart r1 with
        | Some (v, _, r2) => Some (if neg then - v else v, r2)
        | None => None
        end
      else None
  | [] => None
  end.

Definition lower (c : ascii) : ascii :=
  let n := nat_of_ascii c in
  if ((65 <=? n) && (n <=? 90))%nat then ascii_of_nat (n + 32) else c.

Definition list_eqb (l1 l2 : list ascii) : bool :=
  String.eqb (string_of_list_ascii l1) (string_of_list_ascii l2).

Fixpoint num_digits_pos (p : positive) : Z :=
  match p with
  | xH => 1
  | xO q | xI q => 1 + num_digits_pos q
  end.

(** Decimal digit count of a non-negative integer (0 has one digit). *)
Definition num_digits (m : Z) : Z :=
  let fix go (fuel : nat) (m : Z) : Z :=
    match fuel with
    | O => 1
    | S f => if m <? 10 then 1 else 1 + go f (m / 10)
    end in
  match m with Zpos p => go (Z.to_nat (num_digits_pos p)) m | _ => 1 end.

(** Division rounding half to even, for [0 <= n] and [0 < d]. *)
Definition round_half_even (n d : Z) : Z :=
  let q := n / d in
  let r := n - q * d in
  if 2 * r <? d then q
  else if d <? 2 * r then q + 1
  else if Z.even q then q else q + 1.

(** Whether [n / d >= 2 ^ k]. *)
Definition ratio_ge_pow2 (n d k : Z) : bool :=
  if 0 <=? k then d * 2 ^ k <=? n else d <=? n * 2 ^ (- k).

(** The rational [n / d] ([0 <= n], [0 < d]) rounded to nearest, ties to
    even, on 53 significant bits, as (m, e) with value m * 2^e; the exponent
    is at least -1074 (subnormals) and not bounded above. *)
Definition round_binary64 (n d : Z) : Z * Z :=
  if n <=? 0 then (0, -1074) else
  let k := Z.log2 n - Z.log2 d in
  let lg := if ratio_ge_pow2 n d k then k else k - 1 in
  let e := Z.max (lg - 52) (-1074) in
  let m := if 0 <=? e then round_half_even n (d * 2 ^ e)
           else round_half_even (n * 2 ^ (- e)) d in
  if m =? 2 ^ 53 then (2 ^ 52, e + 1) else (m, e).

(** The double nearest to (-1)^neg * m * 10^e (correctly rounded, as
    CPython's [float()] parses); beyond the largest double, an infinity.
    Below 10^-330 the value rounds to zero and from 10^310 up it overflows,
    which spares computing huge powers of ten. *)
Definition double_of_decimal (neg : bool) (m e : Z) : pyfloat :=
  if m <=? 0 then PFinite neg 0 (-1074)
  else if 310 <? num_digits m + e then PInf neg
  else if num_digits m + e <? -330 then PFinite neg 0 (-1074)
  else
    let '(mm, ee) := if 0 <=? e then round_binary64 (m * 10 ^ e) 1
                     else round_binary64 m (10 ^ (- e)) in
    if 971 <? ee then PInf neg else PFinite neg mm ee.

(** [float(s)]: leading and trailing whitespace allowed; raises [ValueError]. *)
Definition py_float (s : string) : M pyfloat :=
  let l := strip_l (list_ascii_of_string s) in
  let (neg, body) := parse_sign l in
  let low := map lower body in
  if list_eqb low (list_ascii_of_string "inf")
     || list_eqb low (list_ascii_of_string "infinity") then ret (PInf neg)
  else if list_eqb low (list_ascii_of_string "nan") then ret PNaN
  else
    match parse_number body with
    | Some (m, k, r) =>
        let '(e, r') := match parse_exponent r with
                        | Some (e, r') => (e, r')
                        | None => (0, r)
                        end in
        match r' with
        | [] => ret (double_of_decimal neg m (e - k))
        | _ => raise ValueError
        end
    | None => raise ValueError
    end.

(** ** [datetime] and [timedelta] *)

Definition US_PER_SEC : Z := 1000000.
Definition US_PER_DAY : Z := 86400 * US_PER_SEC.
(** [date(9999, 12, 31).toordinal()] *)
Definition MAX_ORDINAL : Z := 3652059.
(** Last valid naive datetime, 9999-12-31T23:59:59.999999. *)
Definition MAXUS : Z := MAX_ORDINAL * US_PER_DAY - 1.
(** Days from 0001-01-01 to 1970-01-01. *)
Definition EPOCH_DAYS : Z := 719162.

Definition in_datetime_range (t : Z) : bool := (0 <=? t) && (t <=? MAXUS).

(** Days since 1970-01-01 of a proleptic Gregorian date. *)
Definition days_from_civil (y m d : Z) : Z :=
  let y' := if m <=? 2 then y - 1 else y in
  let era := y' / 400 in
  let yoe := y' - era * 400 in
  let mp := if 2 <? m then m - 3 else m + 9 in
  let doy := (153 * mp + 2) / 5 + d - 1 in
  let doe := yoe * 365 + yoe / 4 - yoe / 100 + doy in
  era * 146097 + doe - 719468.

(** Year, month and day of a day count since 1970-01-01. *)
Definition civil_from_days (z0 : Z) : Z * Z * Z :=
  let z := z0 + 719468 in
  let era := z / 146097 in
  let doe := z - era * 146097 in
  let yoe := (doe - doe / 1460 + doe / 36524 - doe / 146096) / 365 in
  let y := yoe + era * 400 in
  let doy := doe - (365 * yoe + yoe / 4 - yoe / 100) in
  let mp := (5 * doy + 2) / 153 in
  let d := doy - (153 * mp + 2) / 5 + 1 in
  let m := if mp <? 10 then mp + 3 else mp - 9 in
  (if m <=? 2 then y + 1 else y, m, d).

(** [datetime(y, mo, d, h, mi, s, us)] *)
Definition mk_datetime (y mo d h mi s us : Z) : Z :=
  ((days_from_civil y mo d + EPOCH_DAYS) * 86400 + h * 3600 + mi * 60 + s) * US_PER_SEC + us.

(** [datetime.fromtimestamp(t)]: epoch microseconds to local naive datetime. *)
Definition fromtimestamp (t : Z) : M Z :=
  fun st => let dt := t + tz st + EPOCH_DAYS * US_PER_DAY in
            if in_datetime_range dt then (inl dt, st) else (inr ValueError, st).

(** [datetime.now()] *)
Definition datetime_now : M Z := fun st => fromtimestamp (clock st) st.

(** [time.time()] *)
Definition time_time : M Z := gets clock.

(** [timedelta(seconds=x)] as a number of microseconds, as CPython's
    [delta_new] computes it: the integral part of [x] is scaled exactly,
    the fractional part is multiplied by 1e6 in double arithmetic, and the
    sum is rounded to a whole microsecond, ties to even.  A NaN raises
    [ValueError]; an infinity or more than 999999999 days [OverflowError]. *)
Definition timedelta_seconds (x : pyfloat) : M Z :=
  match x with
  | PNaN => raise ValueError
  | PInf _ => raise OverflowError
  | PFinite neg m e =>
      let us :=
        if 0 <=? e then m * 2 ^ e * US_PER_SEC
        else
          let q := 2 ^ (- e) in
          let whole := m / q in
          let frac := m mod q in
          if frac =? 0 then whole * US_PER_SEC
          else
            let '(pm, pe) := round_binary64 (frac * US_PER_SEC) q in
            if 0 <=? pe then whole * US_PER_SEC + pm * 2 ^ pe
            else round_half_even (whole * US_PER_SEC * 2 ^ (- pe) + pm) (2 ^ (- pe)) in
      let us := if neg then - us else us in
      let days := us / US_PER_DAY in
      if (days <? -999999999) || (999999999 <? days) then raise OverflowError
      else ret us
  end.

(** [dt + td]; [OverflowError] outside years 1..9999. *)
Definition dt_add (dt td : Z) : M Z :=
  let r := dt + td in
  if in_datetime_range r then ret r else raise OverflowError.

(** Exactly [w] decimal digits of [n] (zero padded). *)
Fixpoint pad (w : nat) (n : Z) : string :=
  match w with
  | O => EmptyString
  | S w' => pad w' (n / 10) ++ String (ascii_of_nat (Z.to_nat (n mod 10) + 48)) EmptyString
  end.

Record dt_fields := { dt_year : Z; dt_month : Z; dt_day : Z;
                      dt_hour : Z; dt_minute : Z; dt_second : Z; dt_micro : Z }.

Definition fields_of (t : Z) : dt_fields :=
  let days := t / US_PER_DAY in
  let r := t mod US_PER_DAY in
  let '(y, mo, d) := civil_from_days (days - EPOCH_DAYS) in
  {| dt_year := y; dt_month := mo; dt_day := d;
     dt_hour := r / (3600 * US_PER_SEC);
     dt_minute := (r / (60 * US_PER_SEC)) mod 60;
     dt_second := (r / US_PER_SEC) mod 60;
     dt_micro := r mod US_PER_SEC |}.

(** [t.strftime("%d/%m/%Y %H:%M:%S.%f")] *)
Definition strftime_full (t : Z) : string :=
  let f := fields_of t in
  pad 2 (dt_day f) ++ "/" ++ pad 2 (dt_month f) ++ "/" ++ pad 4 (dt_year f) ++ " "
  ++ pad 2 (dt_hour f) ++ ":" ++ pad 2 (dt_minute f) ++ ":" ++ pad 2 (dt_second f)
  ++ "." ++ pad 6 (dt_micro f).

(** [t.strftime("%Y")] *)
Definition strftime_Y (t : Z) : string := pad 4 (dt_year (fields_of t)).

(** [t.strftime("%Y_%m_%d")] *)
Definition strftime_Y_m_d (t : Z) : string :=
  let f := fields_of t in
  pad 4 (dt_year f) ++ "_" ++ pad 2 (dt_month f) ++ "_" ++ pad 2 (dt_day f).

(** ** File-system primitives *)

(** [os.path.getmtime(p)] *)
Definition getmtime (p : string) : M Z :=
  fun st => match dict_get (fs st) p with
            | None => (inr FileNotFoundError, st)
            | Some fi => if f_stat_ok fi then (inl (f_mtime fi), st) else (inr PermissionError, st)
            end.

(** [os.path.getctime(p)] *)
Definition getctime (p : string) : M Z :=
  fun st => match dict_get (fs st) p with
            | None => (inr FileNotFoundError, st)
            | Some fi => if f_stat_ok fi then (inl (f_ctime fi), st) else (inr PermissionError, st)
            end.

(** [open(p, 'r', encoding='utf-8', errors='ignore').readlines()]; the ghost
    field [reads] records which revision (mtime) of the file was read. *)
Definition read_lines (p : string) : M (list string) :=
  fun st => match dict_get (fs st) p with
            | None => (inr FileNotFoundError, st)
            | Some fi =>
                if f_readable fi
                then (inl (readlines (f_content fi)), set_reads (cons (p, f_mtime fi)) st)
                else (inr PermissionError, st)
            end.

(** [os.path.isfile(p)] on an output path. *)
Definition isfile (p : string) : M bool :=
  gets (fun st => match dict_get (out st) p with Some _ => true | None => false end).

(** [open(p, 'a')]: creates the file when absent. *)
Definition open_append (p : string) : M unit :=
  fun st => if existsb (String.eqb p) (out_ro st) then (inr PermissionError, st)
            else match dict_get (out st) p with
                 | Some _ => (inl tt, st)
                 | None => (inl tt, set_out (fun o => dict_set o p EmptyString) st)
                 end.

(** [f.write(data)] on a file opened for appending. *)
Definition f_write (p : string) (data : string) : M unit :=
  modify (set_out (fun o => dict_set o p (dict_get_default o p EmptyString ++ data))).

(** ** [convert_lr_to_epic] *)

Definition TAB : ascii := "009"%char.
Definition NL : string := String "010"%char EmptyString.
Definition HEADER1 : string := "EPIC LR Log File" ++ NL ++ NL.
Definition HEADER2 : string := "Date,LR" ++ NL.

(** One iteration of the loop over [lines]: [None] when the line is skipped. *)
Definition convert_line (file_path : string) (base_time : Z) (line : string)
  : M (option string) :=
  let parts := split_on TAB (strip line) in
  match parts with
  | [p0; p1] =>
      try_except
        (time_offset <- py_float p0 ;;
         let intensity := p1 in
         td <- timedelta_seconds time_offset ;;
         new_time <- dt_add base_time td ;;
         let formatted_time := strftime_full new_time in
         ret (Some (formatted_time ++ "," ++ intensity ++ NL)))
        is_ValueError
        (fun _ => _ <- log (LogSkipInvalid (strip line) file_path) ;; ret None)
  | _ => ret None
  end.

Fixpoint convert_lines (file_path : string) (base_time : Z) (lines : list string)
  : M (list string) :=
  match lines with
  | [] => ret []
  | line :: rest =>
      o <- convert_line file_path base_time line ;;
      converted <- convert_lines file_path base_time rest ;;
      ret (match o with Some l => l :: converted | None => converted end)
  end.

(** [os.path.join(base, year_str, date_str, "LR.txt")] *)
Definition output_file_path_of (output_base_dir : string) (now : Z) : string :=
  path_join (path_join (path_join output_base_dir (strftime_Y now)) (strftime_Y_m_d now)) "LR.txt".

Definition convert_lr_to_epic (file_path output_base_dir : string) : M unit :=
  try_except
    (ct <- getctime file_path ;;
     base_time <- fromtimestamp ct ;;
     lines <- read_lines file_path ;;
     converted_lines <- convert_lines file_path base_time lines ;;
     now <- datetime_now ;;
     let output_file_path := output_file_path_of output_base_dir now in
     file_exists <- isfile output_file_path ;;
     _ <- open_append output_file_path ;;
     _ <- (if negb file_exists
           then _ <- f_write output_file_path HEADER1 ;; f_write output_file_path HEADER2
           else ret tt) ;;
     _ <- f_write output_file_path (String.concat EmptyString converted_lines) ;;
     log (LogAppended (length converted_lines) output_file_path))
    is_Exception
    (fun _ => log (LogFailedConvert file_path)).

(** ** [LRMetaDataHandler] *)

Record Handler := mkHandler {
  output_dir : string;
  inactivity_period : Z   (** seconds *)
}.

Record Event := mkEvent { src_path : string; is_directory : bool }.

Definition _should_track (path : string) : M bool :=
  o <- try_except (mtime <- getmtime path ;; ret (Some mtime))
                  is_FileNotFoundError (fun _ => ret None) ;;
  match o with
  | None => ret false
  | Some mtime =>
      last <- gets (fun st => dict_get_default (processed_mtimes st) path 0) ;;
      ret (last <? mtime)
  end.

Definition on_created (event : Event) : M unit :=
  if is_directory event then ret tt
  else if endswith (src_path event) ".dat" then
    b <- _should_track (src_path event) ;;
    if b then
      _ <- log (LogDetected (src_path event)) ;;
      t <- time_time ;;
      modify (set_ts (fun d => dict_set d (src_path event) t))
    else ret tt
  else ret tt.

Definition on_modified (event : Event) : M unit :=
  if is_directory event then ret tt
  else if endswith (src_path event) ".dat" then
    b <- _should_track (src_path event) ;;
    if b then
      t <- time_time ;;
      modify (set_ts (fun d => dict_set d (src_path event) t))
    else ret tt
  else ret tt.

(** The first loop of [check_and_process_files]. *)
Fixpoint collect_ready (h : Handler) (current_time : Z) (items : list (string * Z))
  : M (list string) :=
  match items with
  | [] => ret []
  | (file_path, last_modified) :: rest =>
      _ <- log (LogChecking file_path last_modified) ;;
      r <- collect_ready h current_time rest ;;
      ret (if inactivity_period h * US_PER_SEC <? current_time - last_modified
           then file_path :: r else r)
  end.

(** The three stages of the body of the second loop. *)
Definition stage_capture (file_path : string) : M (option Z) :=
  try_except (latest_mtime <- getmtime file_path ;; ret (Some latest_mtime))
    is_FileNotFoundError
    (fun _ => _ <- log (LogDisappeared file_path) ;;
              _ <- modify (set_ts (fun d => dict_pop d file_path)) ;;
              ret None).

Definition stage_convert (h : Handler) (file_path : string) : M unit :=
  convert_lr_to_epic file_path (output_dir h).

Definition stage_commit (file_path : string) (latest_mtime : Z) : M unit :=
  _ <- modify (set_marks (fun d => dict_set d file_path latest_mtime)) ;;
  modify (set_ts (fun d => dict_pop d file_path)).

Definition process_file (h : Handler) (file_path : string) : M unit :=
  _ <- log (LogProcessing file_path) ;;
  try_except
    (o <- stage_capture file_path ;;
     match o with
     | None => ret tt
     | Some latest_mtime =>
         _ <- stage_convert h file_path ;;
         stage_commit file_path latest_mtime
     end)
    is_Exception
    (fun _ => log (LogErrProcessing file_path)).

Fixpoint process_files (h : Handler) (files : list string) : M unit :=
  match files with
  | [] => ret tt
  | p :: rest => _ <- process_file h p ;; process_files h rest
  end.

Definition check_and_process_files (h : Handler) : M unit :=
  current_time <- time_time ;;
  items <- gets file_timestamps ;;
  files_to_process <- collect_ready h current_time items ;;
  process_files h files_to_process.

(** ** The running system

    The watched directory is changed by other processes ([AWrite],
    [ADelete]); watchdog delivers [ACreated] and [AModified] events to the
    handler on its observer thread; the main loop runs
    [check_and_process_files] ([APoll]) and sleeps ([ATick]).  An exception
    raised by a callback ends that callback; the effects it had already
    performed are kept. *)

Inductive action : Type :=
| AWrite (p : string) (content : string)
| ADelete (p : string)
| ACreated (p : string)
| AModified (p : string)
| ATick (d : N)
| APoll.

(** A write by another process: the file gets the current time as mtime. *)
Definition write_file (p : string) (content : string) : M unit :=
  modify (fun st =>
    let fi' := match dict_get (fs st) p with
               | Some fi => mkFileInfo (clock st) (f_ctime fi) content (f_stat_ok fi) (f_readable fi)
               | None => mkFileInfo (clock st) (clock st) content true true
               end in
    set_fs (fun d => dict_set d p fi') st).

Definition run_action (h : Handler) (a : action) : M unit :=
  match a with
  | AWrite p c => write_file p c
  | ADelete p => modify (set_fs (fun d => dict_pop d p))
  | ACreated p => on_created (mkEvent p false)
  | AModified p => on_modified (mkEvent p false)
  | ATick d => modify (set_clock (fun c => c + Z.of_N d))
  | APoll => check_and_process_files h
  end.

(** Each action runs to completion before the next one starts. *)
Fixpoint run_seq (h : Handler) (st : State) (acts : list action) : State :=
  match acts with
  | [] => st
  | a :: rest => run_seq h (snd (run_action h a st)) rest
  end.

(** *** The poll loop as a thread

    The same cycle split at the points where the observer thread can run
    between two statements of [check_and_process_files]: after the
    snapshot of ready files, after capturing a file's mtime, after its
    conversion, and after committing the marker.  No lock is taken. *)

Inductive poller : Type :=
| PIdle
| PTodo (files : list string)
| PCaptured (file_path : string) (latest_mtime : Z) (rest : list string)
| PConverted (file_path : string) (latest_mtime : Z) (rest : list string).

Definition poller_step (h : Handler) (ps : poller) : M poller :=
  match ps with
  | PIdle =>
      current_time <- time_time ;;
      items <- gets file_timestamps ;;
      files_to_process <- collect_ready h current_time items ;;
      ret (PTodo files_to_process)
  | PTodo [] => ret PIdle
  | PTodo (p :: rest) =>
      _ <- log (LogProcessing p) ;;
      o <- try_except (stage_capture p) is_Exception
             (fun _ => _ <- log (LogErrProcessing p) ;; ret None) ;;
      ret (match o with None => PTodo rest | Some m => PCaptured p m rest end)
  | PCaptured p m rest =>
      ok <- try_except (_ <- stage_convert h p ;; ret true) is_Exception
              (fun _ => _ <- log (LogErrProcessing p) ;; ret false) ;;
      ret (if ok then PConverted p m rest else PTodo rest)
  | PConverted p m rest =>
      _ <- stage_commit p m ;;
      ret (PTodo rest)
  end.

Inductive item : Type :=
| IPoller              (** the poll loop runs one of its steps *)
| IEnv (a : action).   (** another process or the observer thread acts *)

Fixpoint run_interleaved (h : Handler) (st : State) (ps : poller) (items : list item)
  : State * poller :=
  match items with
  | [] => (st, ps)
  | IPoller :: rest =>
      match poller_step h ps st with
      | (inl ps', st') => run_interleaved h st' ps' rest
      | (inr _, st') => run_interleaved h st' PIdle rest
      end
  | IEnv a :: rest => run_interleaved h (snd (run_action h a st)) ps rest
  end.

(** ** Observations used by the statements below *)

(** The files the first loop of [check_and_process_files] selects. *)
Definition ready_list (h : Handler) (current_time : Z) (items : list (string * Z)) : list string :=
  map fst (filter (fun kv => inactivity_period h * US_PER_SEC <? current_time - snd kv) items).

(** The log entries a line of the conversion loop and a conversion write. *)
Definition is_skip (e : LogEntry) : Prop :=
  match e with LogSkipInvalid _ _ => True | _ => False end.

Definition is_convert_log (e : LogEntry) : Prop :=
  match e with
  | LogSkipInvalid _ _ | LogAppended _ _ | LogFailedConvert _ => True
  | _ => False
  end.

(** What appending to the output file of the day does to the output files. *)
Definition appended (o : dict string) (op data : string) : dict string :=
  dict_set o op (dict_get_default o op EmptyString
                 ++ (match dict_get o op with Some _ => EmptyString | None => HEADER1 ++ HEADER2 end)
                 ++ data).

(** [data] is what the loop of [convert_lr_to_epic] produces for the source
    [p] read in state [st]: the concatenation of its [converted_lines], with
    [base_time] the local creation time of [p]. *)
Definition converts_to (p : string) (st : State) (data : string) : Prop :=
  exists fi conv st',
    dict_get (fs st) p = Some fi /\
    convert_lines p (f_ctime fi + tz st + EPOCH_DAYS * US_PER_DAY) (readlines (f_content fi))
                  (set_reads (cons (p, f_mtime fi)) st) = (inl conv, st') /\
    data = String.concat EmptyString conv.

(** [ProcessedMarker.get(p, 0.0)] *)
Definition marker (st : State) (p : string) : Z := dict_get_default (processed_mtimes st) p 0.

(** The revisions (mtimes) of [p] read by conversions, newest first. *)
Definition reads_of (p : string) (rs : list (string * Z)) : list Z :=
  map snd (filter (fun r => String.eqb (fst r) p) rs).

Fixpoint strictly_decreasing (l : list Z) : Prop :=
  match l with
  | x :: ((y :: _) as r) => y < x /\ strictly_decreasing r
  | _ => True
  end.

(** The local [datetime.now()] of a state. *)
Definition local_now (st : State) : Z := clock st + tz st + EPOCH_DAYS * US_PER_DAY.

(** What [_should_track] answers: [false] for a missing file, a raised
    [PermissionError] when [os.stat] is refused, otherwise the comparison
    with the marker. *)
Definition should_track_answer (st : State) (p : string) : bool + exc :=
  match dict_get (fs st) p with
  | None => inl false
  | Some fi => if f_stat_ok fi then inl (marker st p <? f_mtime fi) else inr PermissionError
  end.

(** A trace in which passing activity events for [p] keep arriving less than
    [thr] microseconds apart: [acc] is the time since the last passing event
    for [p], [present] tells whether the file [p] exists, and the trace ends
    before [thr] has elapsed since the last passing event.  Anything else
    may happen in between: writes to any file (a write to a missing [p]
    creates it), deletions, events for other paths and poll cycles.  An
    event for [p] while its file is missing does not pass [_should_track]
    and resets nothing. *)
Fixpoint events_keep_coming (thr : Z) (p : string) (present : bool) (acc : Z)
  (acts : list action) : Prop :=
  match acts with
  | [] => acc < thr
  | ATick d :: r => events_keep_coming thr p present (acc + Z.of_N d) r
  | AModified q :: r | ACreated q :: r =>
      if String.eqb q p && present then acc < thr /\ events_keep_coming thr p present 0 r
      else events_keep_coming thr p present acc r
  | APoll :: r => events_keep_coming thr p present acc r
  | AWrite q _ :: r => events_keep_coming thr p (present || String.eqb q p) acc r
  | ADelete q :: r => events_keep_coming thr p (present && negb (String.eqb q p)) acc r
  end.

(** The file [p] exists exactly when [present], passes [_should_track]
    whenever it exists, and its marker lies in the past. *)
Definition file_passes (st : State) (p : string) (present : bool) : Prop :=
  match dict_get (fs st) p with
  | Some fi => present = true /\ f_stat_ok fi = true /\ marker st p < f_mtime fi /\
               f_mtime fi <= clock st
  | None => present = false /\ marker st p < clock st
  end.

(** [e] is the log line of the dispatch of [p] ("Processing file: p"). *)
Definition dispatched (p : string) (e : LogEntry) : bool :=
  match e with LogProcessing q => String.eqb q p | _ => false end.

(** How many times the log records a dispatch of [p]. *)
Definition dispatch_count (p : string) (l : list LogEntry) : nat :=
  length (filter (dispatched p) l).

(** What dispatching [p] from [st] leaves in [st'] for [p]: a missing file
    is dropped from ActivityRecord; a file whose stat succeeds is dropped and
    gets its captured mtime as marker; a file whose stat is refused keeps
    its entry and its marker. *)
Definition dispatch_outcome (st st' : State) (p : string) : Prop :=
  match dict_get (fs st) p with
  | None => dict_get (file_timestamps st') p = None /\
            dict_get (processed_mtimes st') p = dict_get (processed_mtimes st) p
  | Some fi =>
      if f_stat_ok fi
      then dict_get (file_timestamps st') p = None /\
           dict_get (processed_mtimes st') p = Some (f_mtime fi)
      else dict_get (file_timestamps st') p = dict_get (file_timestamps st) p /\
           dict_get (processed_mtimes st') p = dict_get (processed_mtimes st) p
  end.

(** The invariant of the sequential system used for at-most-once processing. *)
Definition seq_inv (st : State) : Prop :=
  NoDup (dict_keys (file_timestamps st)) /\
  (forall p fi, dict_get (fs st) p = Some fi -> f_mtime fi <= clock st) /\
  (forall p, In p (dict_keys (file_timestamps st)) ->
     marker st p < clock st /\
     (forall fi, dict_get (fs st) p = Some fi -> marker st p < f_mtime fi)) /\
  (forall p, strictly_decreasing (reads_of p (reads st)) /\
             Forall (fun m => m <= marker st p) (reads_of p (reads st))).

(** The part of the state that a conversion does not touch. *)
Definition core (st : State) : dict FileInfo * Z * Z * dict Z * dict Z :=
  (fs st, clock st, tz st, file_timestamps st, processed_mtimes st).

(** ** Concrete configurations *)

(** The handler of the main program, writing under "out". *)
Definition ex_handler : Handler := mkHandler "out" 30.

(** A source file created at 2024-01-01T10:00:00 local time (UTC zone),
    last modified 10 microseconds after the epoch. *)
Definition ex_ctime : Z := mk_datetime 2024 1 1 10 0 0 0 - EPOCH_DAYS * US_PER_DAY.
Definition ex_file (content : string) : FileInfo := mkFileInfo 10 ex_ctime content true true.

(** "a.dat" tracked since the epoch, polled 100 seconds later. *)
Definition ex_state (content : string) : State :=
  mkState [("a.dat", ex_file content)] [] [] 100000000 0 [("a.dat", 0)] [] [] [].

Definition ex_out_path : string := "out/1970/1970_01_01/LR.txt".

Definition with_out_ro (ro : list string) (st : State) : State :=
  mkState (fs st) (out st) ro (clock st) (tz st) (file_timestamps st)
          (processed_mtimes st) (logs st) (reads st).

Definition line_of (a b : string) : string := a ++ String TAB b ++ NL.


(** The debounce example: "a.dat" last active 10 s before the clock; 15 s
    later it is deleted, rewritten and touched again, while "b.dat" is
    created, becomes ready and is dispatched by a later poll. *)
Definition deb_state : State := set_ts (fun _ => [("a.dat", 90000000)]) (ex_state EmptyString).
Definition deb_acts : list action :=
  [APoll; AWrite "b.dat" (line_of "0" "z"); ACreated "b.dat"; ATick 15000000;
   ADelete "a.dat"; AModified "a.dat"; AWrite "a.dat" (line_of "1" "x"); AModified "a.dat";
   ATick 20000000; APoll; AModified "b.dat"; ATick 5000000; APoll].

(** Two revisions of "a.dat", each polled once, in sequence. *)
Definition c2_acts : list action :=
  [APoll; ATick 1; AWrite "a.dat" (line_of "2" "y"); AModified "a.dat"; ATick 60000000; APoll].

(** A write lands between the capture of the mtime and the conversion. *)
Definition c2_trace : list item :=
  [IPoller; IPoller; IEnv (ATick 1); IEnv (AWrite "a.dat" (line_of "2" "y"));
   IPoller; IPoller; IPoller; IEnv (AModified "a.dat"); IEnv (ATick 60000000);
   IPoller; IPoller; IPoller; IPoller; IPoller].

(** An event is delivered between the conversion and the commit. *)
Definition c9_trace : list item :=
  [IPoller; IPoller; IPoller; IEnv (ATick 1); IEnv (AWrite "a.dat" (line_of "2" "y"));
   IEnv (AModified "a.dat"); IPoller; IPoller].
Definition c9_acts : list action := [ATick 1; AWrite "a.dat" (line_of "2" "y"); AModified "a.dat"].

(** ** The main program

    [__main__] builds the handler, starts the observer and then runs
    [while True: event_handler.check_and_process_files(); time.sleep(5)]
    inside a [try] whose [except Exception] logs "Watchdog crashed". *)

(** [time.sleep(5)] *)
Definition SLEEP_US : Z := 5 * US_PER_SEC.

(** The first [n] iterations of the main loop, with no event in between. *)
Fixpoint main_loop (h : Handler) (n : nat) : M unit :=
  match n with
  | O => ret tt
  | S n' =>
      _ <- check_and_process_files h ;;
      _ <- modify (set_clock (fun c => c + SLEEP_US)) ;;
      main_loop h n'
  end.

(** ** Further observations *)

(** The paths of the "Processing file" log lines, newest first. *)
Fixpoint dispatches (l : list LogEntry) : list string :=
  match l with
  | [] => []
  | LogProcessing p :: r => p :: dispatches r
  | _ :: r => dispatches r
  end.

(** Every output file of [o] is still there in [o'], with [o]'s content as a prefix. *)
Definition out_grows (o o' : dict string) : Prop :=
  forall q c, dict_get o q = Some c -> exists s, dict_get o' q = Some (c ++ s).

(** [p.endswith('.dat')] *)
Definition is_dat (p : string) : Prop := endswith p ".dat" = true.

(** The paths the poll loop still has to dispatch. *)
Definition poller_paths (ps : poller) : list string :=
  match ps with
  | PIdle => []
  | PTodo files => files
  | PCaptured p _ rest | PConverted p _ rest => p :: rest
  end.

(** [s] has no tab character. *)
Definition notab (s : string) : bool :=
  forallb (fun c => negb (Ascii.eqb c TAB)) (list_ascii_of_string s).

Definition CR : ascii := "013"%char.
Definition LF : ascii := "010"%char.

(** Lines as [readlines] returns them: each ends with its only \n, except
    possibly a last non-empty line without one. *)
Definition lines_shape (lines : list string) : Prop :=
  exists pre last,
    lines = app (map (fun b => b ++ String LF EmptyString) pre) last /\
    Forall (fun b => ~ In LF (list_ascii_of_string b)) pre /\
    (last = [] \/ exists b, last = [b] /\ b <> EmptyString /\ ~ In LF (list_ascii_of_string b)).

(** "a.dat" after one poll has converted it, then duplicate events, a sleep
    and more polls. *)
Definition requeue_state : State := run_seq ex_handler (ex_state (line_of "1" "x")) [APoll].
Definition requeue_acts : list action :=
  [AModified "a.dat"; ACreated "a.dat"; ATick 60000000; APoll; AModified "a.dat"; APoll].

(** A source without any tab. *)
Definition tabless_text : string := "EPIC run without data" ++ NL.

(** * Proofs *)

(** ** Dicts *)

Section Dicts.
Context {V : Type}.

Lemma dict_get_set_eq (d : dict V) k v : dict_get (dict_set d k v) k = Some v.
Proof.
  induction d as [|[k' v'] r IH]; simpl.
  - now rewrite String.eqb_refl.
  - destruct (String.eqb k k') eqn:E; simpl; rewrite ?E; auto.
Qed.

Lemma dict_get_set_neq (d : dict V) k k' v :
  k <> k' -> dict_get (dict_set d k v) k' = dict_get d k'.
Proof.
  intros Hne. induction d as [|[k0 v0] r IH]; simpl.
  - destruct (String.eqb_spec k' k); congruence.
  - destruct (String.eqb_spec k k0); simpl.
    + subst. destruct (String.eqb_spec k' k0); congruence.
    + destruct (String.eqb k' k0); auto.
Qed.

Lemma dict_get_pop_eq (d : dict V) k : dict_get (dict_pop d k) k = None.
Proof.
  induction d as [|[k' v'] r IH]; simpl; auto.
  destruct (String.eqb_spec k k'); simpl; auto.
  destruct (String.eqb_spec k k'); congruence.
Qed.

Lemma dict_get_pop_neq (d : dict V) k k' :
  k <> k' -> dict_get (dict_pop d k) k' = dict_get d k'.
Proof.
  intros Hne. induction d as [|[k0 v0] r IH]; simpl; auto.
  destruct (String.eqb_spec k k0); simpl.
  - subst. destruct (String.eqb_spec k' k0); congruence.
  - now rewrite IH.
Qed.

Lemma dict_set_set (d : dict V) k v v' : dict_set (dict_set d k v) k v' = dict_set d k v'.
Proof.
  induction d as [|[k0 v0] r IH]; simpl.
  - now rewrite String.eqb_refl.
  - destruct (String.eqb_spec k k0); simpl.
    + subst. now rewrite String.eqb_refl.
    + destruct (String.eqb_spec k k0); [contradiction|]. now rewrite IH.
Qed.

Lemma dict_get_in_keys (d : dict V) k v : dict_get d k = Some v -> In k (dict_keys d).
Proof.
  induction d as [|[k0 v0] r IH]; simpl; [discriminate|].
  destruct (String.eqb_spec k k0); auto.
Qed.

Lemma in_keys_dict_get (d : dict V) k : In k (dict_keys d) -> exists v, dict_get d k = Some v.
Proof.
  induction d as [|[k0 v0] r IH]; simpl; [contradiction|].
  destruct (String.eqb_spec k k0); eauto.
  intros [E|H]; [congruence|auto].
Qed.

Lemma in_keys_set (d : dict V) k v x :
  In x (dict_keys (dict_set d k v)) <-> x = k \/ In x (dict_keys d).
Proof.
  induction d as [|[k0 v0] r IH]; simpl.
  - intuition.
  - destruct (String.eqb_spec k k0); simpl.
    + subst. intuition.
    + rewrite IH. intuition.
Qed.

Lemma in_keys_pop (d : dict V) k x :
  In x (dict_keys (dict_pop d k)) <-> x <> k /\ In x (dict_keys d).
Proof.
  induction d as [|[k0 v0] r IH]; simpl.
  - intuition.
  - destruct (String.eqb_spec k k0); simpl.
    + subst. rewrite IH. intuition. subst. congruence.
    + rewrite IH. intuition. subst. auto.
Qed.

Lemma nodup_keys_set (d : dict V) k v :
  NoDup (dict_keys d) -> NoDup (dict_keys (dict_set d k v)).
Proof.
  induction d as [|[k0 v0] r IH]; simpl; intros H.
  - constructor; [intros []|constructor].
  - inversion H as [|? ? Hn Hr]; subst.
    destruct (String.eqb_spec k k0); simpl.
    + now constructor.
    + constructor; auto. rewrite in_keys_set. intuition.
Qed.

Lemma nodup_keys_pop (d : dict V) k :
  NoDup (dict_keys d) -> NoDup (dict_keys (dict_pop d k)).
Proof.
  induction d as [|[k0 v0] r IH]; simpl; intros H; [constructor|].
  inversion H as [|? ? Hn Hr]; subst.
  destruct (String.eqb_spec k k0); simpl; auto.
  constructor; auto. rewrite in_keys_pop. intuition.
Qed.

End Dicts.

Lemma str_app_assoc (a b c : string) : a ++ (b ++ c) = (a ++ b) ++ c.
Proof. induction a; simpl; congruence. Qed.

Lemma str_app_nil_r (a : string) : a ++ EmptyString = a.
Proof. induction a; simpl; congruence. Qed.

(** ** Pure primitives *)

Ltac case_matches :=
  repeat (first [ reflexivity
                | match goal with
                  | |- context [match ?x with _ => _ end] => destruct x
                  end ]).

Lemma py_float_pure s st : snd (py_float s st) = st.
Proof. unfold py_float, ret, raise. case_matches. Qed.


Lemma timedelta_seconds_pure x st : snd (timedelta_seconds x st) = st.
Proof. unfold timedelta_seconds, ret, raise. case_matches. Qed.



Lemma dt_add_pure a b st : snd (dt_add a b st) = st.
Proof. unfold dt_add, ret, raise. case_matches. Qed.

Lemma getmtime_pure p st : snd (getmtime p st) = st.
Proof. unfold getmtime. case_matches. Qed.

Lemma getctime_pure p st : snd (getctime p st) = st.
Proof. unfold getctime. case_matches. Qed.

Lemma fromtimestamp_pure t st : snd (fromtimestamp t st) = st.
Proof. unfold fromtimestamp. case_matches. Qed.

Lemma datetime_now_pure st : snd (datetime_now st) = st.
Proof. apply fromtimestamp_pure. Qed.


(** A line of the loop only ever logs a skipped line. *)
Lemma convert_line_effect fp b line st :
  exists new, snd (convert_line fp b line st) = set_logs (app new) st /\ Forall is_skip new.
Proof.
  unfold convert_line.
  destruct (split_on TAB (strip line)) as [|p0 [|p1 [|p2 r]]];
    try (exists []; split; [destruct st; reflexivity | constructor]).
  unfold try_except, bind.
  pose proof (py_float_pure p0 st) as E0.
  destruct (py_float p0 st) as [[x|e] st0]; simpl in E0; subst st0.
  - pose proof (timedelta_seconds_pure x st) as E1.
    destruct (timedelta_seconds x st) as [[td|e] st1]; simpl in E1; subst st1.
    + pose proof (dt_add_pure b td st) as E2.
      destruct (dt_add b td st) as [[nt|e] st2]; simpl in E2; subst st2.
      * exists []; split; [destruct st; reflexivity | constructor].
      * destruct (is_ValueError e).
        -- exists [LogSkipInvalid (strip line) fp]; split; [reflexivity|repeat constructor].
        -- exists []; split; [destruct st; reflexivity | constructor].
    + destruct (is_ValueError e).
      * exists [LogSkipInvalid (strip line) fp]; split; [reflexivity|repeat constructor].
      * exists []; split; [destruct st; reflexivity | constructor].
  - destruct (is_ValueError e).
    + exists [LogSkipInvalid (strip line) fp]; split; [reflexivity|repeat constructor].
    + exists []; split; [destruct st; reflexivity | constructor].
Qed.

Lemma set_logs_app (n1 n2 : list LogEntry) st :
  set_logs (app n2) (set_logs (app n1) st) = set_logs (app (app n2 n1)) st.
Proof. destruct st; unfold set_logs; simpl. now rewrite app_assoc. Qed.

Lemma convert_lines_effect fp b lines st :
  exists new, snd (convert_lines fp b lines st) = set_logs (app new) st /\ Forall is_skip new.
Proof.
  revert st. induction lines as [|l r IH]; intros st; simpl.
  - exists []; split; [destruct st; reflexivity | constructor].
  - unfold bind.
    destruct (convert_line_effect fp b l st) as [n1 [E1 F1]].
    destruct (convert_line fp b l st) as [[o|e] st1]; simpl in E1; subst st1.
    + destruct (IH (set_logs (app n1) st)) as [n2 [E2 F2]].
      destruct (convert_lines fp b r (set_logs (app n1) st)) as [[c|e] st2];
        simpl in E2; subst st2; simpl;
        exists (app n2 n1); rewrite set_logs_app; split; auto; apply Forall_app; auto.
    + exists n1; auto.
Qed.



Lemma forall_skip_convert new : Forall is_skip new -> Forall is_convert_log new.
Proof. intros H; induction H; constructor; auto. destruct x; simpl in *; auto. Qed.

(** The whole effect of one conversion: it never raises, leaves the watcher's
    state alone, reads the source at most once and either leaves the output
    files as they were or appends to the output file of the day, writing the
    header first when that file is new. *)
Ltac cbn_io := cbn -[output_file_path_of appended local_now dict_get_default readlines convert_lines].

Ltac early_failure p :=
  cbn_io; repeat split; try reflexivity; try (left; reflexivity);
  exists [LogFailedConvert p]; split; [reflexivity | repeat constructor].

Lemma convert_effect p base st :
  fst (convert_lr_to_epic p base st) = inl tt /\
  core (snd (convert_lr_to_epic p base st)) = core st /\
  out_ro (snd (convert_lr_to_epic p base st)) = out_ro st /\
  (reads (snd (convert_lr_to_epic p base st)) = reads st \/
   exists fi, dict_get (fs st) p = Some fi /\
              reads (snd (convert_lr_to_epic p base st)) = (p, f_mtime fi) :: reads st) /\
  (out (snd (convert_lr_to_epic p base st)) = out st \/
   exists data, out (snd (convert_lr_to_epic p base st)) =
                appended (out st) (output_file_path_of base (local_now st)) data) /\
  (exists new, logs (snd (convert_lr_to_epic p base st)) = app new (logs st) /\
               Forall is_convert_log new).
Proof.
  unfold convert_lr_to_epic, try_except, bind, is_Exception, log, modify.
  unfold getctime.
  destruct (dict_get (fs st) p) as [fi|] eqn:Hfi;
    [|early_failure p].
  destruct (f_stat_ok fi) eqn:Hok;
    [|early_failure p].
  unfold fromtimestamp.
  destruct (in_datetime_range (f_ctime fi + tz st + EPOCH_DAYS * US_PER_DAY)) eqn:Hct;
    [|early_failure p].
  unfold read_lines. rewrite Hfi.
  destruct (f_readable fi) eqn:Hrd;
    [|early_failure p].
  set (st1 := set_reads (cons (p, f_mtime fi)) st).
  set (bt := f_ctime fi + tz st + EPOCH_DAYS * US_PER_DAY).
  set (lines := readlines (f_content fi)).
  destruct (convert_lines_effect p bt lines st1) as [n1 [E1 F1]].
  destruct (convert_lines p bt lines st1) as [[conv|e] st2]; simpl in E1; subst st2.
  2:{ cbn_io. repeat split; auto.
      - right. exists fi. auto.
      - exists (LogFailedConvert p :: n1). split; [reflexivity|].
        constructor; [exact I|]. now apply forall_skip_convert. }
  unfold datetime_now, fromtimestamp.
  set (st2 := set_logs (app n1) st1).
  assert (Hc : clock st2 + tz st2 + EPOCH_DAYS * US_PER_DAY = local_now st) by reflexivity.
  rewrite Hc.
  destruct (in_datetime_range (local_now st)) eqn:Hnow.
  2:{ cbn_io. repeat split; auto.
      - right. exists fi. auto.
      - exists (LogFailedConvert p :: n1). split; [reflexivity|].
        constructor; [exact I|]. now apply forall_skip_convert. }
  set (op := output_file_path_of base (local_now st)).
  unfold isfile, gets, open_append.
  assert (Hro : out_ro st2 = out_ro st) by reflexivity.
  assert (Ho : out st2 = out st) by reflexivity.
  rewrite Hro, Ho.
  destruct (existsb (String.eqb op) (out_ro st)) eqn:Hw.
  { cbn_io. repeat split; auto.
    - right. exists fi. auto.
    - exists (LogFailedConvert p :: n1). split; [reflexivity|].
      constructor; [exact I|]. now apply forall_skip_convert. }
  destruct (dict_get (out st) op) as [c|] eqn:Hop; cbn_io.
  - repeat split; auto.
    + right. exists fi. auto.
    + right. exists (String.concat EmptyString conv). unfold appended. rewrite Hop.
      unfold dict_get_default. rewrite Hop. reflexivity.
    + exists (LogAppended (length conv) op :: n1). split; [reflexivity|].
      constructor; [exact I|]. now apply forall_skip_convert.
  - repeat split; auto.
    + right. exists fi. auto.
    + right. exists (String.concat EmptyString conv). unfold appended. rewrite Hop.
      unfold dict_get_default. rewrite Hop.
      rewrite !dict_get_set_eq, !dict_set_set. reflexivity.
    + exists (LogAppended (length conv) op :: n1). split; [reflexivity|].
      constructor; [exact I|]. now apply forall_skip_convert.
Qed.

(** What a conversion appends is exactly its converted lines. *)
Lemma convert_out p base st :
  out (snd (convert_lr_to_epic p base st)) = out st \/
  exists data, converts_to p st data /\
    out (snd (convert_lr_to_epic p base st)) =
    appended (out st) (output_file_path_of base (local_now st)) data.
Proof.
  unfold convert_lr_to_epic, try_except, bind, is_Exception, log, modify.
  unfold getctime.
  destruct (dict_get (fs st) p) as [fi|] eqn:Hfi; [|left; reflexivity].
  destruct (f_stat_ok fi) eqn:Hok; [|left; reflexivity].
  unfold fromtimestamp.
  destruct (in_datetime_range (f_ctime fi + tz st + EPOCH_DAYS * US_PER_DAY)) eqn:Hct;
    [|left; reflexivity].
  unfold read_lines. rewrite Hfi.
  destruct (f_readable fi) eqn:Hrd; [|left; reflexivity].
  set (st1 := set_reads (cons (p, f_mtime fi)) st).
  set (bt := f_ctime fi + tz st + EPOCH_DAYS * US_PER_DAY).
  set (lines := readlines (f_content fi)).
  destruct (convert_lines_effect p bt lines st1) as [n1 [E1 _]].
  destruct (convert_lines p bt lines st1) as [[conv|e] st2] eqn:Hcl; simpl in E1; subst st2.
  2:{ left. cbn_io. reflexivity. }
  unfold datetime_now, fromtimestamp.
  set (st2 := set_logs (app n1) st1).
  assert (Hc : clock st2 + tz st2 + EPOCH_DAYS * US_PER_DAY = local_now st) by reflexivity.
  rewrite Hc.
  destruct (in_datetime_range (local_now st)) eqn:Hnow; [|left; cbn_io; reflexivity].
  set (op := output_file_path_of base (local_now st)).
  unfold isfile, gets, open_append.
  assert (Hro : out_ro st2 = out_ro st) by reflexivity.
  assert (Ho : out st2 = out st) by reflexivity.
  rewrite Hro, Ho.
  destruct (existsb (String.eqb op) (out_ro st)) eqn:Hw; [left; cbn_io; reflexivity|].
  right. exists (String.concat EmptyString conv).
  split; [exists fi, conv, st2; split; [exact Hfi | split; [exact Hcl | reflexivity]]|].
  destruct (dict_get (out st) op) as [c|] eqn:Hop; cbn_io.
  - unfold appended. rewrite Hop. unfold dict_get_default. rewrite Hop. reflexivity.
  - unfold appended. rewrite Hop. unfold dict_get_default. rewrite Hop.
    rewrite !dict_get_set_eq, !dict_set_set. reflexivity.
Qed.

(** ** One dispatched file *)

Lemma process_file_missing h p st :
  dict_get (fs st) p = None ->
  process_file h p st =
  (inl tt, set_ts (fun d => dict_pop d p)
             (set_logs (cons (LogDisappeared p)) (set_logs (cons (LogProcessing p)) st))).
Proof.
  intros H. unfold process_file, stage_capture, getmtime, bind, log, modify, try_except.
  cbn_io. rewrite H. reflexivity.
Qed.

Lemma process_file_stat_refused h p st fi :
  dict_get (fs st) p = Some fi -> f_stat_ok fi = false ->
  process_file h p st =
  (inl tt, set_logs (cons (LogErrProcessing p)) (set_logs (cons (LogProcessing p)) st)).
Proof.
  intros H Hok. unfold process_file, stage_capture, getmtime, bind, log, modify, try_except.
  cbn_io. rewrite H, Hok. reflexivity.
Qed.

Lemma process_file_stat_ok h p st fi :
  dict_get (fs st) p = Some fi -> f_stat_ok fi = true ->
  fst (process_file h p st) = inl tt /\
  fs (snd (process_file h p st)) = fs st /\
  clock (snd (process_file h p st)) = clock st /\
  tz (snd (process_file h p st)) = tz st /\
  out_ro (snd (process_file h p st)) = out_ro st /\
  processed_mtimes (snd (process_file h p st)) = dict_set (processed_mtimes st) p (f_mtime fi) /\
  file_timestamps (snd (process_file h p st)) = dict_pop (file_timestamps st) p /\
  (reads (snd (process_file h p st)) = reads st \/
   reads (snd (process_file h p st)) = (p, f_mtime fi) :: reads st) /\
  (out (snd (process_file h p st)) = out st \/
   exists data, out (snd (process_file h p st)) =
                appended (out st) (output_file_path_of (output_dir h) (local_now st)) data) /\
  (exists new, logs (snd (process_file h p st)) = app new (LogProcessing p :: logs st) /\
               Forall is_convert_log new).
Proof.
  intros H Hok.
  unfold process_file, stage_capture, stage_convert, stage_commit, getmtime,
    bind, log, modify, try_except.
  cbn_io. rewrite H, Hok. cbn_io.
  set (st1 := set_logs (cons (LogProcessing p)) st).
  destruct (convert_effect p (output_dir h) st1) as (E1 & E2 & E3 & E4 & E5 & E6).
  destruct (convert_lr_to_epic p (output_dir h) st1) as [r st2].
  simpl in E1, E2, E3, E4, E5, E6. subst r.
  unfold core in E2. injection E2 as Efs Eclk Etz Ets Emk.
  cbn_io. rewrite Efs, Eclk, Etz, Ets, Emk, E3. subst st1. cbn_io.
  repeat split; auto.
  - destruct E4 as [E4|[fi' [Hfi' E4]]]; [left; exact E4|right].
    cbn in Hfi'. rewrite H in Hfi'. injection Hfi' as <-. exact E4.
Qed.

(** ** C1: conversion failures *)

(** [convert_lr_to_epic] never raises, and whenever the dispatcher captured
    the mtime of a file, the file leaves ActivityRecord and its marker is set
    to that mtime, whether the conversion failed or not. *)
Lemma convert_never_raises p base st : fst (convert_lr_to_epic p base st) = inl tt.
Proof. apply convert_effect. Qed.

(** Claim C1 (amended): a failed conversion is caught and logged inside
    [convert_lr_to_epic]; the dispatcher then removes the path from
    ActivityRecord and records ProcessedMarker[path] = captured mtime, as for
    a successful conversion. *)
Theorem C1_failed_conversion_still_marked (h : Handler) (p : string) (st : State)
  (fi : FileInfo) (Hfi : dict_get (fs st) p = Some fi) (Hok : f_stat_ok fi = true) :
  (forall st0, fst (convert_lr_to_epic p (output_dir h) st0) = inl tt) /\
  fst (process_file h p st) = inl tt /\
  dict_get (processed_mtimes (snd (process_file h p st))) p = Some (f_mtime fi) /\
  dict_get (file_timestamps (snd (process_file h p st))) p = None.
Proof.
  destruct (process_file_stat_ok h p st fi Hfi Hok) as (E1 & _ & _ & _ & _ & E6 & E7 & _).
  split; [intros; apply convert_never_raises|].
  rewrite E6, E7. split; [exact E1|]. split.
  - apply dict_get_set_eq.
  - apply dict_get_pop_eq.
Qed.

Lemma C1_failed_conversion_still_marked_witness :
  dict_get (fs (ex_state EmptyString)) "a.dat" = Some (ex_file EmptyString) /\
  f_stat_ok (ex_file EmptyString) = true /\
  dict_get (processed_mtimes (snd (process_file ex_handler "a.dat" (ex_state EmptyString)))) "a.dat"
    = Some 10.
Proof.
  split; [reflexivity|]. split; [reflexivity|].
  exact (proj1 (proj2 (proj2 (C1_failed_conversion_still_marked ex_handler "a.dat"
           (ex_state EmptyString) (ex_file EmptyString) eq_refl eq_refl)))).
Defined.

(** Claim C1, counterexample: the output file cannot be opened, the
    conversion fails and is logged, and the marker is updated all the same. *)
Lemma C1_marker_updated_on_failure :
  let st' := snd (process_file ex_handler "a.dat" (with_out_ro [ex_out_path] (ex_state EmptyString))) in
  In (LogFailedConvert "a.dat") (logs st') /\
  dict_get (processed_mtimes st') "a.dat" = Some 10.
Proof. vm_compute. split; [tauto | reflexivity]. Qed.

(** ** The event filter *)

Lemma should_track_spec p st : _should_track p st = (should_track_answer st p, st).
Proof.
  unfold _should_track, should_track_answer, getmtime, try_except, bind, ret, gets.
  destruct (dict_get (fs st) p) as [f|]; [|reflexivity].
  destruct (f_stat_ok f); reflexivity.
Qed.

(** ** C3: the event filter *)

(** Claim C3 (amended): [_should_track] changes no state; it answers
    [false] when the file is missing, raises [PermissionError] (any stat
    error other than [FileNotFoundError]) when the stat is refused, and
    otherwise compares the mtime with the marker (default 0).  After the
    dispatcher processed the file at mtime T, an event for the unchanged
    file is filtered out and changes nothing. *)
Theorem C3_should_track_answer (h : Handler) (p : string) (st st0 : State) (fi : FileInfo)
  (Hfi : dict_get (fs st0) p = Some fi) (Hok : f_stat_ok fi = true) :
  _should_track p st = (should_track_answer st p, st) /\
  _should_track p (snd (process_file h p st0)) = (inl false, snd (process_file h p st0)) /\
  on_modified (mkEvent p false) (snd (process_file h p st0)) = (inl tt, snd (process_file h p st0)) /\
  on_created (mkEvent p false) (snd (process_file h p st0)) = (inl tt, snd (process_file h p st0)).
Proof.
  assert (Hst : forall st, _should_track p st = (should_track_answer st p, st))
    by apply should_track_spec.
  destruct (process_file_stat_ok h p st0 fi Hfi Hok) as (_ & Efs & _ & _ & _ & Emk & _).
  set (st1 := snd (process_file h p st0)) in *.
  assert (Hans : should_track_answer st1 p = inl false).
  { unfold should_track_answer, marker, dict_get_default.
    rewrite Efs, Hfi, Hok, Emk, dict_get_set_eq. now rewrite Z.ltb_irrefl. }
  split; [apply Hst|]. split; [now rewrite Hst, Hans|].
  split.
  - unfold on_modified; simpl. destruct (endswith p ".dat"); [|reflexivity].
    unfold bind. rewrite Hst, Hans. reflexivity.
  - unfold on_created; simpl. destruct (endswith p ".dat"); [|reflexivity].
    unfold bind. rewrite Hst, Hans. reflexivity.
Qed.

Lemma C3_should_track_answer_witness :
  dict_get (fs (ex_state EmptyString)) "a.dat" = Some (ex_file EmptyString) /\
  f_stat_ok (ex_file EmptyString) = true /\
  _should_track "a.dat" (ex_state EmptyString) = (inl true, ex_state EmptyString).
Proof.
  split; [reflexivity|]. split; [reflexivity|].
  exact (proj1 (C3_should_track_answer ex_handler "a.dat" (ex_state EmptyString) (ex_state EmptyString)
                  (ex_file EmptyString) eq_refl eq_refl)).
Defined.

(** Claim C3, counterexample: a file that exists but cannot be stat-ed
    (the stat is refused) makes [_should_track] raise instead of answering
    [false]. *)
Lemma C3_unstatable_file_raises :
  fst (_should_track "a.dat"
         (set_fs (fun _ => [("a.dat", mkFileInfo 10 ex_ctime EmptyString false true)]) (ex_state EmptyString)))
  = inr PermissionError.
Proof. vm_compute. reflexivity. Qed.

(** ** C5: a tracked file deleted before its dispatch *)

(** Claim C5: when the file of a ready path is missing at the mtime capture,
    the dispatcher logs it, removes the path from ActivityRecord, leaves
    ProcessedMarker as it was, raises nothing and goes on with the
    remaining ready files. *)
Theorem C5_missing_file_dropped (h : Handler) (p : string) (rest : list string) (st : State)
  (Hmissing : dict_get (fs st) p = None) :
  let st1 := set_ts (fun d => dict_pop d p)
               (set_logs (cons (LogDisappeared p)) (set_logs (cons (LogProcessing p)) st)) in
  fst (process_file h p st) = inl tt /\
  process_files h (p :: rest) st = process_files h rest st1 /\
  processed_mtimes st1 = processed_mtimes st /\
  dict_get (file_timestamps st1) p = None.
Proof.
  intros st1. rewrite (process_file_missing h p st Hmissing).
  split; [reflexivity|]. split.
  - simpl. unfold bind. rewrite (process_file_missing h p st Hmissing). reflexivity.
  - split; [reflexivity|]. apply dict_get_pop_eq.
Qed.

Lemma C5_missing_file_dropped_witness :
  dict_get (fs (set_fs (fun _ => []) (ex_state EmptyString))) "a.dat" = None /\
  fst (process_file ex_handler "a.dat" (set_fs (fun _ => []) (ex_state EmptyString))) = inl tt.
Proof.
  split; [reflexivity|].
  exact (proj1 (C5_missing_file_dropped ex_handler "a.dat" [] (set_fs (fun _ => []) (ex_state EmptyString))
                  eq_refl)).
Defined.

(** ** C6: end to end *)

Lemma convert_lines_2_5_HIGH p st :
  convert_lines p (mk_datetime 2024 1 1 10 0 0 0) (readlines (line_of "2.5" "HIGH")) st
  = (inl ["01/01/2024 10:00:02.500000,HIGH" ++ NL], st).
Proof. vm_compute. reflexivity. Qed.

(** Claim C6: a source created at 2024-01-01T10:00:00 holding "2.5\tHIGH\n"
    produces the single line "01/01/2024 10:00:02.500000,HIGH\n", appended
    (after the header when the file is new) to
    <outputBase>/<YYYY>/<YYYY_MM_DD>/LR.txt, the date being that of the
    current time at conversion. *)
Theorem C6_end_to_end (p base : string) (st : State) (fi : FileInfo)
  (Hfi : dict_get (fs st) p = Some fi) (Hok : f_stat_ok fi = true)
  (Hrd : f_readable fi = true)
  (Hct : f_ctime fi + tz st + EPOCH_DAYS * US_PER_DAY = mk_datetime 2024 1 1 10 0 0 0)
  (Hcontent : f_content fi = line_of "2.5" "HIGH")
  (Hnow : in_datetime_range (local_now st) = true)
  (Hw : existsb (String.eqb (output_file_path_of base (local_now st))) (out_ro st) = false) :
  out (snd (convert_lr_to_epic p base st)) =
    appended (out st) (output_file_path_of base (local_now st))
             ("01/01/2024 10:00:02.500000,HIGH" ++ NL) /\
  output_file_path_of base (local_now st) =
    path_join (path_join (path_join base (strftime_Y (local_now st)))
                         (strftime_Y_m_d (local_now st))) "LR.txt" /\
  output_file_path_of "out" (mk_datetime 2024 1 1 23 59 0 0) = "out/2024/2024_01_01/LR.txt".
Proof.
  split; [|split; [reflexivity | vm_compute; reflexivity]].
  unfold convert_lr_to_epic, try_except, bind, is_Exception, log, modify.
  unfold getctime. rewrite Hfi, Hok.
  unfold fromtimestamp. cbv beta zeta. rewrite Hct.
  replace (in_datetime_range (mk_datetime 2024 1 1 10 0 0 0)) with true by reflexivity.
  unfold read_lines. rewrite Hfi, Hrd, Hcontent.
  rewrite convert_lines_2_5_HIGH.
  unfold datetime_now, fromtimestamp. cbn_io.
  change (clock st + tz st + 62135596800000000) with (local_now st).
  rewrite Hnow.
  set (op := output_file_path_of base (local_now st)) in *.
  unfold isfile, gets, open_append. cbn_io. rewrite Hw.
  unfold appended.
  destruct (dict_get (out st) op) as [c|] eqn:Hop; cbn_io.
  - unfold dict_get_default. rewrite Hop. reflexivity.
  - unfold dict_get_default. rewrite Hop.
    rewrite !dict_get_set_eq, !dict_set_set. reflexivity.
Qed.

Lemma C6_end_to_end_witness :
  out (snd (convert_lr_to_epic "a.dat" "out" (ex_state (line_of "2.5" "HIGH")))) =
    [(ex_out_path, HEADER1 ++ HEADER2 ++ "01/01/2024 10:00:02.500000,HIGH" ++ NL)].
Proof.
  rewrite (proj1 (C6_end_to_end "a.dat" "out" (ex_state (line_of "2.5" "HIGH"))
                    (ex_file (line_of "2.5" "HIGH")) eq_refl eq_refl eq_refl
                    ltac:(vm_compute; reflexivity) eq_refl
                    ltac:(vm_compute; reflexivity) ltac:(vm_compute; reflexivity))).
  vm_compute. reflexivity.
Defined.

(** ** C7 and C10: the loop over the lines *)



Lemma convert_line_nan fp b line p0 p1 st :
  split_on TAB (strip line) = [p0; p1] -> fst (py_float p0 st) = inl PNaN ->
  convert_line fp b line st = (inl None, set_logs (cons (LogSkipInvalid (strip line) fp)) st).
Proof.
  intros Hs Hx. unfold convert_line. rewrite Hs.
  unfold try_except, bind.
  pose proof (py_float_pure p0 st) as E.
  destruct (py_float p0 st) as [r st']; simpl in E, Hx; subst. reflexivity.
Qed.

Lemma convert_line_converted fp b line p0 p1 x td st :
  split_on TAB (strip line) = [p0; p1] ->
  fst (py_float p0 st) = inl x ->
  fst (timedelta_seconds x st) = inl td ->
  in_datetime_range (b + td) = true ->
  convert_line fp b line st = (inl (Some (strftime_full (b + td) ++ "," ++ p1 ++ NL)), st).
Proof.
  intros Hs Hx Htd Hr. unfold convert_line. rewrite Hs.
  unfold try_except, bind.
  pose proof (py_float_pure p0 st) as E.
  destruct (py_float p0 st) as [r st']; simpl in E, Hx; subst.
  pose proof (timedelta_seconds_pure x st) as E.
  destruct (timedelta_seconds x st) as [r st']; simpl in E, Htd; subst.
  unfold dt_add. rewrite Hr. reflexivity.
Qed.










(** Claim C10 (amended): a two-field line whose first field parses to a
    number that gives a representable [timedelta] and timestamp becomes
    exactly the formatted timestamp, a comma, the second field verbatim
    (after the whole line was stripped) and a newline; a NaN first field is
    skipped with a warning. *)
Theorem C10_output_line (fp : string) (b : Z) (line p0 p1 : string) (x : pyfloat) (td : Z)
  (st : State)
  (Hsplit : split_on TAB (strip line) = [p0; p1])
  (Hx : fst (py_float p0 st) = inl x)
  (Htd : fst (timedelta_seconds x st) = inl td)
  (Hrange : in_datetime_range (b + td) = true) :
  convert_line fp b line st = (inl (Some (strftime_full (b + td) ++ "," ++ p1 ++ NL)), st) /\
  (forall line' q0 q1, split_on TAB (strip line') = [q0; q1] -> fst (py_float q0 st) = inl PNaN ->
     convert_line fp b line' st = (inl None, set_logs (cons (LogSkipInvalid (strip line') fp)) st)).
Proof.
  split.
  - eapply convert_line_converted; eauto.
  - intros; eapply convert_line_nan; eauto.
Qed.

Lemma C10_output_line_witness :
  convert_line "a.dat" (mk_datetime 2024 1 1 10 0 0 0) (line_of " 0.25" "1,2 ") (ex_state EmptyString) =
  (inl (Some ("01/01/2024 10:00:00.250000,1,2" ++ NL)), ex_state EmptyString).
Proof.
  rewrite (proj1 (C10_output_line "a.dat" (mk_datetime 2024 1 1 10 0 0 0) (line_of " 0.25" "1,2 ")
                    "0.25" "1,2" (PFinite false 4503599627370496 (-54)) 250000 (ex_state EmptyString)
                    ltac:(vm_compute; reflexivity) ltac:(vm_compute; reflexivity)
                    ltac:(vm_compute; reflexivity) ltac:(vm_compute; reflexivity))).
  vm_compute. reflexivity.
Defined.

(** Claim C10, counterexample: "nan" is a number for [float()], yet the
    two-field line "nan\t1" produces no output line. *)
Lemma C10_nan_offset_not_converted :
  fst (py_float "nan" (ex_state EmptyString)) = inl PNaN /\
  fst (convert_line "a.dat" (mk_datetime 2024 1 1 10 0 0 0) (line_of "nan" "1") (ex_state EmptyString)) = inl None.
Proof. vm_compute. split; reflexivity. Qed.

(** ** C8: the header of the output file *)

Lemma local_now_core st st' : core st' = core st -> local_now st' = local_now st.
Proof. unfold core, local_now. intros E. injection E. intros. congruence. Qed.

Lemma appended_get_eq o op data :
  dict_get (appended o op data) op =
  Some (match dict_get o op with
        | Some c => c ++ data
        | None => HEADER1 ++ HEADER2 ++ data
        end).
Proof.
  unfold appended, dict_get_default. rewrite dict_get_set_eq.
  destruct (dict_get o op); [reflexivity|]. rewrite <- str_app_assoc. reflexivity.
Qed.

Lemma appended_get_neq o op data q : op <> q -> dict_get (appended o op data) q = dict_get o q.
Proof. intros H. unfold appended. now apply dict_get_set_neq. Qed.

(** Claim C8: a conversion either leaves the output files alone or appends
    its converted lines to the output file of the day and changes no other
    file: after the header when that file does not exist yet, directly after
    the existing content otherwise; no content is ever overwritten; so of
    two conversions on the same day into a new output file, only the first
    one that writes puts the header, and the second appends its converted
    lines after the first one's. *)
Theorem C8_header_once (p1 p2 base : string) (st : State)
  (Habsent : dict_get (out st) (output_file_path_of base (local_now st)) = None) :
  (forall p st0,
     let op := output_file_path_of base (local_now st0) in
     let st0' := snd (convert_lr_to_epic p base st0) in
     out st0' = out st0 \/
     exists data, converts_to p st0 data /\
       dict_get (out st0') op =
         Some (match dict_get (out st0) op with
               | Some c => c ++ data
               | None => HEADER1 ++ HEADER2 ++ data
               end) /\
       (forall q, q <> op -> dict_get (out st0') q = dict_get (out st0) q)) /\
  (forall p st0 q c, dict_get (out st0) q = Some c ->
     exists suffix, dict_get (out (snd (convert_lr_to_epic p base st0))) q = Some (c ++ suffix)) /\
  (let op := output_file_path_of base (local_now st) in
   let st1 := snd (convert_lr_to_epic p1 base st) in
   let st2 := snd (convert_lr_to_epic p2 base st1) in
   (dict_get (out st1) op = None /\
    (dict_get (out st2) op = None \/
     exists d2, converts_to p2 st1 d2 /\ dict_get (out st2) op = Some (HEADER1 ++ HEADER2 ++ d2))) \/
   (exists d1, converts_to p1 st d1 /\ dict_get (out st1) op = Some (HEADER1 ++ HEADER2 ++ d1) /\
    (dict_get (out st2) op = Some (HEADER1 ++ HEADER2 ++ d1) \/
     exists d2, converts_to p2 st1 d2 /\
                dict_get (out st2) op = Some (HEADER1 ++ HEADER2 ++ d1 ++ d2)))).
Proof.
  split.
  { intros p st0 op st0'.
    destruct (convert_out p base st0) as [E|[data [Hd E]]]; [left; exact E|right].
    exists data. split; [exact Hd|]. subst st0'. rewrite E. split.
    - apply appended_get_eq.
    - intros q Hq. apply appended_get_neq. intros Eq. apply Hq. rewrite <- Eq. reflexivity. }
  split.
  - intros p st0 q c Hq.
    destruct (convert_out p base st0) as [E|[data [_ E]]]; rewrite E.
    + exists EmptyString. now rewrite str_app_nil_r.
    + destruct (String.eqb_spec (output_file_path_of base (local_now st0)) q) as [<-|Hne].
      * rewrite appended_get_eq, Hq. eauto.
      * rewrite appended_get_neq by exact Hne. exists EmptyString. now rewrite str_app_nil_r.
  - intros op st1 st2.
    change (output_file_path_of base (local_now st)) with op in Habsent.
    assert (Hc1 : local_now st1 = local_now st)
      by (apply local_now_core; apply convert_effect).
    destruct (convert_out p1 base st) as [E1|[d1 [Hd1 E1]]]; fold st1 in E1.
    + left. rewrite E1. split; [exact Habsent|].
      destruct (convert_out p2 base st1) as [E2|[d2 [Hd2 E2]]]; fold st2 in E2.
      * left. now rewrite E2, E1.
      * right. exists d2. split; [exact Hd2|]. rewrite E2, Hc1, E1. fold op.
        rewrite appended_get_eq, Habsent. reflexivity.
    + right. exists d1. split; [exact Hd1|]. split.
      * rewrite E1. fold op. rewrite appended_get_eq, Habsent. reflexivity.
      * destruct (convert_out p2 base st1) as [E2|[d2 [Hd2 E2]]]; fold st2 in E2.
        -- left. rewrite E2, E1. fold op. rewrite appended_get_eq, Habsent. reflexivity.
        -- right. exists d2. split; [exact Hd2|]. rewrite E2, Hc1, E1. fold op.
           rewrite appended_get_eq, appended_get_eq, Habsent.
           now rewrite <- !str_app_assoc.
Qed.

Lemma C8_header_once_witness :
  dict_get (out (ex_state EmptyString)) (output_file_path_of "out" (local_now (ex_state EmptyString))) = None /\
  (forall st0 q c, dict_get (out st0) q = Some c ->
     exists suffix, dict_get (out (snd (convert_lr_to_epic "a.dat" "out" st0))) q = Some (c ++ suffix)).
Proof.
  split; [vm_compute; reflexivity|].
  exact (proj1 (proj2 (C8_header_once "a.dat" "a.dat" "out" (ex_state EmptyString)
                         ltac:(vm_compute; reflexivity))) "a.dat").
Defined.

(** Two conversions of the same source on the same day: one header. *)
Example two_conversions_one_header :
  dict_get (out (snd (convert_lr_to_epic "a.dat" "out"
                        (snd (convert_lr_to_epic "a.dat" "out" (ex_state (line_of "2.5" "HIGH")))))))
           ex_out_path
  = Some (HEADER1 ++ HEADER2 ++ "01/01/2024 10:00:02.500000,HIGH" ++ NL
          ++ "01/01/2024 10:00:02.500000,HIGH" ++ NL).
Proof. vm_compute. reflexivity. Qed.

(** ** Scheduling: the log of dispatches *)

Lemma dispatch_count_app p a b :
  dispatch_count p (app a b) = (dispatch_count p a + dispatch_count p b)%nat.
Proof. unfold dispatch_count. now rewrite filter_app, length_app. Qed.

Lemma dispatch_count_convert p new : Forall is_convert_log new -> dispatch_count p new = 0%nat.
Proof.
  induction 1 as [|e l He _ IH]; [reflexivity|].
  unfold dispatch_count in *. destruct e; simpl in *; tauto.
Qed.

Lemma marker_eq st st' p :
  dict_get (processed_mtimes st') p = dict_get (processed_mtimes st) p -> marker st' p = marker st p.
Proof. unfold marker, dict_get_default. now intros ->. Qed.

Lemma marker_some st p m : dict_get (processed_mtimes st) p = Some m -> marker st p = m.
Proof. unfold marker, dict_get_default. now intros ->. Qed.

Lemma reads_of_cons p q m rs :
  reads_of p ((q, m) :: rs) = if String.eqb q p then m :: reads_of p rs else reads_of p rs.
Proof. unfold reads_of. simpl. now destruct (String.eqb q p). Qed.

Lemma dict_get_in_pair {V} (d : dict V) k v : dict_get d k = Some v -> In (k, v) d.
Proof.
  induction d as [|[k0 v0] r IH]; simpl; [discriminate|].
  destruct (String.eqb_spec k k0); [intros E; injection E as <-; subst; auto|auto].
Qed.

Lemma in_pair_dict_get {V} (d : dict V) k v :
  NoDup (dict_keys d) -> In (k, v) d -> dict_get d k = Some v.
Proof.
  induction d as [|[k0 v0] r IH]; simpl; [contradiction|].
  intros Hnd Hin. inversion Hnd as [|? ? Hn Hr]; subst.
  destruct (String.eqb_spec k k0).
  - subst. destruct Hin as [E|Hin]; [congruence|].
    exfalso. apply Hn. change k0 with (fst (k0, v)). now apply in_map.
  - destruct Hin as [E|Hin]; [congruence|auto].
Qed.

Lemma ready_list_cons h ct fp lm r :
  ready_list h ct ((fp, lm) :: r) =
  if inactivity_period h * US_PER_SEC <? ct - lm then fp :: ready_list h ct r else ready_list h ct r.
Proof. unfold ready_list. simpl. now destruct (_ <? _). Qed.

(** The first loop only logs. *)
Lemma collect_ready_spec h ct items st :
  exists new, collect_ready h ct items st = (inl (ready_list h ct items), set_logs (app new) st) /\
              forall p, dispatch_count p new = 0%nat.
Proof.
  revert st. induction items as [|[fp lm] r IH]; intros st.
  - exists []. split; [destruct st; reflexivity | reflexivity].
  - cbn [collect_ready]. unfold bind at 1, log, modify.
    unfold bind. destruct (IH (set_logs (cons (LogChecking fp lm)) st)) as [n [E Hn]].
    rewrite E. exists (app n [LogChecking fp lm]). split.
    + rewrite ready_list_cons. unfold ret. f_equal.
      destruct st; unfold set_logs; cbn. now rewrite <- app_assoc.
    + intros p. rewrite dispatch_count_app, Hn. reflexivity.
Qed.

Lemma ready_list_nodup h ct items : NoDup (dict_keys items) -> NoDup (ready_list h ct items).
Proof.
  unfold ready_list, dict_keys. induction items as [|[k v] r IH]; simpl; intros Hnd; [constructor|].
  inversion Hnd as [|? ? Hn Hr]; subst.
  destruct (_ <? _); simpl; auto.
  constructor; auto. intros Hin. apply Hn.
  apply in_map_iff in Hin as [[k' v'] [E Hin]]. apply filter_In in Hin as [Hin _].
  rewrite <- E. now apply in_map.
Qed.

Lemma ready_list_in h ct items p :
  NoDup (dict_keys items) ->
  In p (ready_list h ct items) <->
  exists t, dict_get items p = Some t /\ inactivity_period h * US_PER_SEC < ct - t.
Proof.
  intros Hnd. unfold ready_list. rewrite in_map_iff. split.
  - intros [[k t] [E Hin]]. apply filter_In in Hin as [Hin Hlt]. simpl in E, Hlt. subst.
    exists t. split; [now apply in_pair_dict_get|]. now apply Z.ltb_lt.
  - intros [t [E Hlt]]. exists (p, t). split; [reflexivity|].
    apply filter_In. split; [now apply dict_get_in_pair|]. simpl. now apply Z.ltb_lt.
Qed.

(** One dispatched file, seen from the scheduler: it never raises, leaves
    the directory and the clock alone, touches the entry and the marker of
    its own path only, reads at most the current revision of it and logs one
    dispatch of it. *)
Lemma process_file_frame h q st :
  fst (process_file h q st) = inl tt /\
  fs (snd (process_file h q st)) = fs st /\
  clock (snd (process_file h q st)) = clock st /\
  (NoDup (dict_keys (file_timestamps st)) ->
   NoDup (dict_keys (file_timestamps (snd (process_file h q st))))) /\
  (forall p, q <> p ->
     dict_get (file_timestamps (snd (process_file h q st))) p = dict_get (file_timestamps st) p /\
     dict_get (processed_mtimes (snd (process_file h q st))) p = dict_get (processed_mtimes st) p) /\
  dispatch_outcome st (snd (process_file h q st)) q /\
  (reads (snd (process_file h q st)) = reads st \/
   exists fi, dict_get (fs st) q = Some fi /\ f_stat_ok fi = true /\
              reads (snd (process_file h q st)) = (q, f_mtime fi) :: reads st) /\
  (exists new, logs (snd (process_file h q st)) = app new (logs st) /\
               forall p, dispatch_count p new = if String.eqb q p then 1%nat else 0%nat).
Proof.
  destruct (dict_get (fs st) q) as [fi|] eqn:Hq; [destruct (f_stat_ok fi) eqn:Hok|].
  - destruct (process_file_stat_ok h q st fi Hq Hok)
      as (E1 & Efs & Eclk & _ & _ & Emk & Ets & Erd & _ & [new [Elog Hnew]]).
    unfold dispatch_outcome. rewrite Hq, Hok, Efs, Eclk, Emk, Ets.
    split; [exact E1|]. split; [reflexivity|]. split; [reflexivity|].
    split; [apply nodup_keys_pop|].
    split; [intros p Hne; split; [now apply dict_get_pop_neq | now apply dict_get_set_neq]|].
    split; [split; [apply dict_get_pop_eq | apply dict_get_set_eq]|].
    split; [destruct Erd as [Erd|Erd]; [left|right; exists fi]; auto|].
    exists (app new [LogProcessing q]). rewrite Elog, <- app_assoc. split; [reflexivity|].
    intros p. rewrite dispatch_count_app, (dispatch_count_convert p new Hnew).
    unfold dispatch_count. simpl. now destruct (String.eqb q p).
  - rewrite (process_file_stat_refused h q st fi Hq Hok).
    unfold dispatch_outcome. rewrite Hq, Hok.
    destruct st as [fs0 o ro c z ts mk lg rd]; cbn.
    split; [reflexivity|]. split; [reflexivity|]. split; [reflexivity|].
    split; [auto|]. split; [auto|]. split; [auto|]. split; [auto|].
    exists [LogErrProcessing q; LogProcessing q]. split; [reflexivity|].
    intros p. unfold dispatch_count. simpl. now destruct (String.eqb q p).
  - rewrite (process_file_missing h q st Hq).
    unfold dispatch_outcome. rewrite Hq.
    destruct st as [fs0 o ro c z ts mk lg rd]; cbn.
    split; [reflexivity|]. split; [reflexivity|]. split; [reflexivity|].
    split; [apply nodup_keys_pop|].
    split; [intros p Hne; split; [now apply dict_get_pop_neq | reflexivity]|].
    split; [split; [apply dict_get_pop_eq | reflexivity]|].
    split; [auto|].
    exists [LogDisappeared q; LogProcessing q]. split; [reflexivity|].
    intros p. unfold dispatch_count. simpl. now destruct (String.eqb q p).
Qed.

Lemma dispatch_outcome_congr st0 st st1 st2 p :
  fs st0 = fs st ->
  dict_get (file_timestamps st0) p = dict_get (file_timestamps st) p ->
  dict_get (processed_mtimes st0) p = dict_get (processed_mtimes st) p ->
  dict_get (file_timestamps st2) p = dict_get (file_timestamps st1) p ->
  dict_get (processed_mtimes st2) p = dict_get (processed_mtimes st1) p ->
  dispatch_outcome st0 st1 p -> dispatch_outcome st st2 p.
Proof.
  unfold dispatch_outcome. intros Hfs Hts Hmk Hts2 Hmk2 H.
  rewrite Hfs, Hts, Hmk in H. rewrite Hts2, Hmk2. exact H.
Qed.

(** The second loop of [check_and_process_files]. *)
Lemma process_files_frame h files st :
  fst (process_files h files st) = inl tt /\
  fs (snd (process_files h files st)) = fs st /\
  clock (snd (process_files h files st)) = clock st /\
  (NoDup (dict_keys (file_timestamps st)) ->
   NoDup (dict_keys (file_timestamps (snd (process_files h files st))))) /\
  (forall p, ~ In p files ->
     dict_get (file_timestamps (snd (process_files h files st))) p = dict_get (file_timestamps st) p /\
     dict_get (processed_mtimes (snd (process_files h files st))) p = dict_get (processed_mtimes st) p) /\
  (NoDup files -> forall p, In p files -> dispatch_outcome st (snd (process_files h files st)) p) /\
  (exists new, logs (snd (process_files h files st)) = app new (logs st) /\
               forall p, dispatch_count p new = count_occ string_dec files p).
Proof.
  revert st. induction files as [|q r IH]; intros st.
  - cbn. split; [reflexivity|]. split; [reflexivity|]. split; [reflexivity|].
    split; [auto|]. split; [auto|]. split; [intros _ p []|].
    exists []. split; reflexivity.
  - cbn [process_files]. unfold bind.
    destruct (process_file_frame h q st)
      as (E1 & Efs1 & Eclk1 & Nd1 & Oth1 & Out1 & _ & [n1 [Elog1 Hn1]]).
    destruct (process_file h q st) as [res st1]. cbn in *. subst res.
    destruct (IH st1) as (E2 & Efs2 & Eclk2 & Nd2 & Oth2 & Out2 & [n2 [Elog2 Hn2]]).
    split; [exact E2|]. split; [congruence|]. split; [congruence|].
    split; [auto|].
    split.
    { intros p Hp. assert (q <> p) by (intros ->; apply Hp; left; reflexivity).
      destruct (Oth1 p H) as [A1 B1]. destruct (Oth2 p (fun Hin => Hp (or_intror Hin))) as [A2 B2].
      split; congruence. }
    split.
    { intros Hnd p Hin. inversion Hnd as [|? ? Hq Hr]; subst.
      destruct Hin as [<-|Hin].
      - destruct (Oth2 q Hq) as [A2 B2].
        exact (dispatch_outcome_congr st st st1 _ q
                 eq_refl eq_refl eq_refl A2 B2 Out1).
      - assert (q <> p) by (intros ->; contradiction).
        destruct (Oth1 p H) as [A1 B1].
        exact (dispatch_outcome_congr st1 st _ _ p Efs1 A1 B1 eq_refl eq_refl (Out2 Hr p Hin)). }
    exists (app n2 n1). rewrite Elog2, Elog1, app_assoc. split; [reflexivity|].
    intros p. rewrite dispatch_count_app, Hn1, Hn2. cbn.
    destruct (string_dec q p), (String.eqb_spec q p); try contradiction; lia.
Qed.

(** A whole poll cycle. *)
Lemma poll_frame h st :
  NoDup (dict_keys (file_timestamps st)) ->
  fs (snd (check_and_process_files h st)) = fs st /\
  clock (snd (check_and_process_files h st)) = clock st /\
  NoDup (dict_keys (file_timestamps (snd (check_and_process_files h st)))) /\
  (forall p, ~ In p (ready_list h (clock st) (file_timestamps st)) ->
     dict_get (file_timestamps (snd (check_and_process_files h st))) p = dict_get (file_timestamps st) p /\
     dict_get (processed_mtimes (snd (check_and_process_files h st))) p = dict_get (processed_mtimes st) p) /\
  (forall p, In p (ready_list h (clock st) (file_timestamps st)) ->
     dispatch_outcome st (snd (check_and_process_files h st)) p) /\
  (exists new, logs (snd (check_and_process_files h st)) = app new (logs st) /\
               forall p, dispatch_count p new =
                         count_occ string_dec (ready_list h (clock st) (file_timestamps st)) p).
Proof.
  intros Hnd.
  unfold check_and_process_files, bind, time_time, gets. cbn beta iota.
  destruct (collect_ready_spec h (clock st) (file_timestamps st) st) as [n [E Hn]].
  rewrite E. cbn beta iota.
  set (rl := ready_list h (clock st) (file_timestamps st)).
  set (st0 := set_logs (app n) st).
  destruct (process_files_frame h rl st0) as (_ & Efs & Eclk & Nd & Oth & Out & [n2 [Elog Hn2]]).
  split; [exact Efs|]. split; [exact Eclk|]. split; [exact (Nd Hnd)|].
  split; [exact Oth|].
  split.
  { intros p Hin.
    exact (dispatch_outcome_congr st0 st _ _ p eq_refl eq_refl eq_refl eq_refl eq_refl
             (Out (ready_list_nodup h (clock st) _ Hnd) p Hin)). }
  assert (El0 : logs st0 = app n (logs st)) by (destruct st; reflexivity).
  exists (app n2 n). rewrite Elog, El0, app_assoc. split; [reflexivity|].
  intros p. rewrite dispatch_count_app, Hn2, Hn. lia.
Qed.

(** What an event callback does. *)
Lemma event_effect h a p st :
  a = ACreated p \/ a = AModified p ->
  exists new, (forall x, dispatch_count x new = 0%nat) /\
  snd (run_action h a st) =
    if endswith p ".dat" then
      match should_track_answer st p with
      | inl true => set_ts (fun d => dict_set d p (clock st)) (set_logs (app new) st)
      | _ => st
      end
    else st.
Proof.
  intros [-> | ->]; cbn [run_action]; unfold on_created, on_modified; cbn [is_directory src_path].
  - exists [LogDetected p]. split; [reflexivity|].
    destruct (endswith p ".dat"); [|reflexivity]. unfold bind. rewrite should_track_spec.
    destruct (should_track_answer st p) as [[|]|e]; [|reflexivity|reflexivity].
    unfold log, modify, time_time, gets. destruct st; reflexivity.
  - exists []. split; [reflexivity|].
    destruct (endswith p ".dat"); [|reflexivity]. unfold bind. rewrite should_track_spec.
    destruct (should_track_answer st p) as [[|]|e]; [|reflexivity|reflexivity].
    unfold modify, time_time, gets. destruct st; reflexivity.
Qed.

Lemma write_file_fs p c st :
  snd (write_file p c st) =
  set_fs (fun d => dict_set d p
            (match dict_get (fs st) p with
             | Some fi => mkFileInfo (clock st) (f_ctime fi) c (f_stat_ok fi) (f_readable fi)
             | None => mkFileInfo (clock st) (clock st) c true true
             end)) st.
Proof. reflexivity. Qed.

Lemma events_keep_coming_lt thr p present acc acts :
  events_keep_coming thr p present acc acts -> acc < thr.
Proof.
  revert present acc. induction acts as [|a r IH]; intros present acc H; cbn in H; [exact H|].
  destruct a as [q c|q|q|q|d|].
  - exact (IH _ _ H).
  - exact (IH _ _ H).
  - destruct (String.eqb q p && present); [tauto | exact (IH _ _ H)].
  - destruct (String.eqb q p && present); [tauto | exact (IH _ _ H)].
  - specialize (IH _ _ H). pose proof (N2Z.is_nonneg d). lia.
  - exact (IH _ _ H).
Qed.

(** An event callback touches only the ActivityRecord entry of its own
    path, and only when the path passes [_should_track]. *)
Lemma event_frame h a q st :
  a = ACreated q \/ a = AModified q ->
  NoDup (dict_keys (file_timestamps st)) ->
  (exists new, logs (snd (run_action h a st)) = app new (logs st) /\
               forall x, dispatch_count x new = 0%nat) /\
  fs (snd (run_action h a st)) = fs st /\ clock (snd (run_action h a st)) = clock st /\
  processed_mtimes (snd (run_action h a st)) = processed_mtimes st /\
  NoDup (dict_keys (file_timestamps (snd (run_action h a st)))) /\
  (forall x, q <> x ->
     dict_get (file_timestamps (snd (run_action h a st))) x = dict_get (file_timestamps st) x) /\
  (should_track_answer st q <> inl true -> file_timestamps (snd (run_action h a st)) = file_timestamps st).
Proof.
  intros Ha Hnd. destruct (event_effect h a q st Ha) as [n0 [Hn0 E]]. rewrite E.
  destruct (endswith q ".dat"); [destruct (should_track_answer st q) as [[|]|e]|].
  - cbn. split; [exists n0; split; [reflexivity | exact Hn0]|].
    split; [reflexivity|]. split; [reflexivity|]. split; [reflexivity|].
    split; [apply nodup_keys_set; exact Hnd|].
    split; [intros x Hx; apply dict_get_set_neq; exact Hx|].
    intros C. contradiction C. reflexivity.
  - repeat split; try reflexivity; [exists []; split; reflexivity|exact Hnd].
  - repeat split; try reflexivity; [exists []; split; reflexivity|exact Hnd].
  - repeat split; try reflexivity; [exists []; split; reflexivity|exact Hnd].
Qed.

Lemma file_passes_marker st p present : file_passes st p present -> marker st p < clock st.
Proof. unfold file_passes. destruct (dict_get (fs st) p); intros H; lia. Qed.

(** While passing events keep coming, the path stays tracked, is never
    ready and no poll dispatches it. *)
Lemma debounce_run h p present acc acts st :
  NoDup (dict_keys (file_timestamps st)) ->
  dict_get (file_timestamps st) p = Some (clock st - acc) ->
  file_passes st p present ->
  endswith p ".dat" = true ->
  events_keep_coming (inactivity_period h * US_PER_SEC) p present acc acts ->
  (exists t, dict_get (file_timestamps (run_seq h st acts)) p = Some t /\
             clock (run_seq h st acts) - t < inactivity_period h * US_PER_SEC) /\
  (exists new, logs (run_seq h st acts) = app new (logs st) /\ dispatch_count p new = 0%nat).
Proof.
  revert st present acc.
  induction acts as [|a r IH]; intros st present acc Hnd Hts Hfp Hdat Hev.
  - cbn in Hev |- *. split; [exists (clock st - acc); split; [exact Hts | lia]|].
    exists []. split; reflexivity.
  - assert (Hev' := Hev). cbn [events_keep_coming] in Hev'. cbn [run_seq].
    pose proof (file_passes_marker st p present Hfp) as Hmc.
    destruct a as [q c|q|q|q|d|].
    + (* a write by another process *)
      cbn [run_action]. rewrite write_file_fs.
      set (fi' := match dict_get (fs st) q with
                  | Some fi => mkFileInfo (clock st) (f_ctime fi) c (f_stat_ok fi) (f_readable fi)
                  | None => mkFileInfo (clock st) (clock st) c true true
                  end).
      refine (IH (set_fs (fun d => dict_set d q fi') st) _ acc Hnd Hts _ Hdat Hev').
      unfold file_passes. cbn [fs set_fs].
      destruct (String.eqb_spec q p) as [->|Hne].
      * rewrite dict_get_set_eq, orb_true_r.
        assert (Hm : marker (set_fs (fun d => dict_set d p fi') st) p = marker st p) by reflexivity.
        assert (Hc : clock (set_fs (fun d => dict_set d p fi') st) = clock st) by reflexivity.
        rewrite Hm, Hc. unfold fi'. unfold file_passes in Hfp.
        destruct (dict_get (fs st) p) as [fi|]; cbn [f_stat_ok f_mtime].
        -- destruct Hfp as (_ & Hok & _). repeat split; [exact Hok | lia | lia].
        -- repeat split; lia.
      * rewrite dict_get_set_neq by exact Hne. rewrite orb_false_r. exact Hfp.
    + (* a deletion by another process *)
      cbn [run_action]. unfold modify.
      refine (IH (set_fs (fun d => dict_pop d q) st) _ acc Hnd Hts _ Hdat Hev').
      unfold file_passes. cbn [fs set_fs].
      destruct (String.eqb_spec q p) as [->|Hne].
      * rewrite dict_get_pop_eq, andb_false_r. split; [reflexivity | exact Hmc].
      * rewrite dict_get_pop_neq by exact Hne. rewrite andb_true_r. exact Hfp.
    + (* an [on_created] event *)
      destruct (event_frame h (ACreated q) q st (or_introl eq_refl) Hnd)
        as ([n0 [El0 Hn0]] & Efs & Eclk & Emk & Nd & Oth & Rej).
      assert (Hfp1 : file_passes (snd (run_action h (ACreated q) st)) p present).
      { unfold file_passes, marker. rewrite Efs, Eclk, Emk. exact Hfp. }
      destruct (String.eqb_spec q p) as [->|Hne]; [destruct present|].
      * (* a passing event for [p] *)
        destruct Hev' as [_ Hev'].
        destruct (event_effect h (ACreated p) p st (or_introl eq_refl)) as [n1 [_ E]].
        unfold file_passes in Hfp.
        destruct (dict_get (fs st) p) as [fi|] eqn:Hfi; [|destruct Hfp as [Hf _]; discriminate].
        destruct Hfp as (_ & Hok & Hmk & Hclk).
        assert (Hans : should_track_answer st p = inl true).
        { unfold should_track_answer. rewrite Hfi, Hok. f_equal. now apply Z.ltb_lt. }
        assert (Ets : dict_get (file_timestamps (snd (run_action h (ACreated p) st))) p = Some (clock st)).
        { rewrite E, Hdat, Hans. cbn. apply dict_get_set_eq. }
        destruct (IH _ _ 0 Nd ltac:(rewrite Ets, Eclk; f_equal; lia) Hfp1 Hdat Hev')
          as [A [n [El Hn]]].
        split; [exact A|]. exists (app n n0). rewrite El, El0, app_assoc. split; [reflexivity|].
        rewrite dispatch_count_app, Hn, Hn0. reflexivity.
      * (* an event for the missing [p]: it does not pass *)
        assert (Ets : file_timestamps (snd (run_action h (ACreated p) st)) = file_timestamps st).
        { apply Rej. unfold should_track_answer. unfold file_passes in Hfp.
          destruct (dict_get (fs st) p); [destruct Hfp as [Hf _]; discriminate | discriminate]. }
        destruct (IH _ _ acc Nd ltac:(rewrite Ets, Eclk; exact Hts) Hfp1 Hdat Hev')
          as [A [n [El Hn]]].
        split; [exact A|]. exists (app n n0). rewrite El, El0, app_assoc. split; [reflexivity|].
        rewrite dispatch_count_app, Hn, Hn0. reflexivity.
      * (* an event for another path *)
        cbn [andb] in Hev'.
        destruct (IH _ _ acc Nd ltac:(rewrite Oth, Eclk by exact Hne; exact Hts) Hfp1 Hdat Hev')
          as [A [n [El Hn]]].
        split; [exact A|]. exists (app n n0). rewrite El, El0, app_assoc. split; [reflexivity|].
        rewrite dispatch_count_app, Hn, Hn0. reflexivity.
    + (* an [on_modified] event *)
      destruct (event_frame h (AModified q) q st (or_intror eq_refl) Hnd)
        as ([n0 [El0 Hn0]] & Efs & Eclk & Emk & Nd & Oth & Rej).
      assert (Hfp1 : file_passes (snd (run_action h (AModified q) st)) p present).
      { unfold file_passes, marker. rewrite Efs, Eclk, Emk. exact Hfp. }
      destruct (String.eqb_spec q p) as [->|Hne]; [destruct present|].
      * (* a passing event for [p] *)
        destruct Hev' as [_ Hev'].
        destruct (event_effect h (AModified p) p st (or_intror eq_refl)) as [n1 [_ E]].
        unfold file_passes in Hfp.
        destruct (dict_get (fs st) p) as [fi|] eqn:Hfi; [|destruct Hfp as [Hf _]; discriminate].
        destruct Hfp as (_ & Hok & Hmk & Hclk).
        assert (Hans : should_track_answer st p = inl true).
        { unfold should_track_answer. rewrite Hfi, Hok. f_equal. now apply Z.ltb_lt. }
        assert (Ets : dict_get (file_timestamps (snd (run_action h (AModified p) st))) p = Some (clock st)).
        { rewrite E, Hdat, Hans. cbn. apply dict_get_set_eq. }
        destruct (IH _ _ 0 Nd ltac:(rewrite Ets, Eclk; f_equal; lia) Hfp1 Hdat Hev')
          as [A [n [El Hn]]].
        split; [exact A|]. exists (app n n0). rewrite El, El0, app_assoc. split; [reflexivity|].
        rewrite dispatch_count_app, Hn, Hn0. reflexivity.
      * (* an event for the missing [p]: it does not pass *)
        assert (Ets : file_timestamps (snd (run_action h (AModified p) st)) = file_timestamps st).
        { apply Rej. unfold should_track_answer. unfold file_passes in Hfp.
          destruct (dict_get (fs st) p); [destruct Hfp as [Hf _]; discriminate | discriminate]. }
        destruct (IH _ _ acc Nd ltac:(rewrite Ets, Eclk; exact Hts) Hfp1 Hdat Hev')
          as [A [n [El Hn]]].
        split; [exact A|]. exists (app n n0). rewrite El, El0, app_assoc. split; [reflexivity|].
        rewrite dispatch_count_app, Hn, Hn0. reflexivity.
      * (* an event for another path *)
        cbn [andb] in Hev'.
        destruct (IH _ _ acc Nd ltac:(rewrite Oth, Eclk by exact Hne; exact Hts) Hfp1 Hdat Hev')
          as [A [n [El Hn]]].
        split; [exact A|]. exists (app n n0). rewrite El, El0, app_assoc. split; [reflexivity|].
        rewrite dispatch_count_app, Hn, Hn0. reflexivity.
    + (* the main loop sleeps *)
      cbn [run_action]. unfold modify.
      refine (IH (set_clock (fun c => c + Z.of_N d) st) present (acc + Z.of_N d) Hnd
                  ltac:(cbn; rewrite Hts; f_equal; lia) _ Hdat Hev').
      pose proof (N2Z.is_nonneg d).
      unfold file_passes in Hfp |- *. unfold marker in *. cbn [fs clock processed_mtimes set_clock].
      destruct (dict_get (fs st) p); [destruct Hfp as (? & ? & ? & ?)|destruct Hfp]; repeat split; auto; lia.
    + (* a poll cycle: [p] is not ready *)
      cbn [run_action].
      pose proof (events_keep_coming_lt _ _ _ _ _ Hev') as Hlt.
      assert (Hnr : ~ In p (ready_list h (clock st) (file_timestamps st))).
      { rewrite (ready_list_in h _ _ p Hnd). intros [t [Et Ht]].
        rewrite Hts in Et. injection Et as <-. lia. }
      destruct (poll_frame h st Hnd) as (Efs & Eclk & Nd & Oth & _ & [n0 [El0 Hn0]]).
      destruct (Oth p Hnr) as [Ets Emk].
      set (st1 := snd (check_and_process_files h st)) in *.
      assert (Hfp1 : file_passes st1 p present).
      { unfold file_passes. rewrite Efs, Eclk, (marker_eq st st1 p Emk). exact Hfp. }
      destruct (IH st1 present acc Nd ltac:(rewrite Ets, Eclk; exact Hts) Hfp1 Hdat Hev')
        as [A [n [El Hn]]].
      split; [exact A|]. exists (app n n0). rewrite El, El0, app_assoc. split; [reflexivity|].
      rewrite dispatch_count_app, Hn, Hn0. rewrite (proj1 (count_occ_not_In string_dec _ p) Hnr). reflexivity.
Qed.

(** ** C4: debounce

    Claim C4 (amended): while passing events for a tracked [p] keep coming
    less than inactivity_period seconds apart, whatever else happens in
    between (writes, deletions, events for other paths, clock ticks and
    polls), [p] stays in ActivityRecord, is never ready and no poll
    dispatches it; once more than inactivity_period seconds have passed
    since its last activity, the next poll dispatches it exactly once and
    then drops its entry (setting the marker when the stat succeeds),
    except when the stat is refused: the entry is kept. *)
Theorem C4_debounce (h : Handler) (p : string) (acc : Z) (acts : list action) (st : State)
  (fi : FileInfo)
  (Hnd : NoDup (dict_keys (file_timestamps st)))
  (Hts : dict_get (file_timestamps st) p = Some (clock st - acc))
  (Hfi : dict_get (fs st) p = Some fi) (Hok : f_stat_ok fi = true)
  (Hmk : marker st p < f_mtime fi) (Hclk : f_mtime fi <= clock st)
  (Hdat : endswith p ".dat" = true)
  (Hev : events_keep_coming (inactivity_period h * US_PER_SEC) p true acc acts) :
  ((exists t, dict_get (file_timestamps (run_seq h st acts)) p = Some t /\
              clock (run_seq h st acts) - t < inactivity_period h * US_PER_SEC) /\
   (exists new, logs (run_seq h st acts) = app new (logs st) /\ dispatch_count p new = 0%nat)) /\
  (forall st' t,
     NoDup (dict_keys (file_timestamps st')) ->
     dict_get (file_timestamps st') p = Some t ->
     inactivity_period h * US_PER_SEC < clock st' - t ->
     (exists new, logs (snd (check_and_process_files h st')) = app new (logs st') /\
                  dispatch_count p new = 1%nat) /\
     dispatch_outcome st' (snd (check_and_process_files h st')) p).
Proof.
  split.
  { apply (debounce_run h p true acc acts st Hnd Hts); [|exact Hdat|exact Hev].
    unfold file_passes. rewrite Hfi. auto. }
  intros st' t Hnd' Hts' Hold.
  assert (Hin : In p (ready_list h (clock st') (file_timestamps st')))
    by (apply (ready_list_in h _ _ p Hnd'); exists t; auto).
  destruct (poll_frame h st' Hnd') as (_ & _ & _ & _ & Out & [n [El Hn]]).
  split; [|exact (Out p Hin)].
  exists n. split; [exact El|]. rewrite Hn.
  exact (proj1 (NoDup_count_occ' string_dec _) (ready_list_nodup h _ _ Hnd') p Hin).
Qed.


Lemma C4_debounce_witness :
  events_keep_coming (inactivity_period ex_handler * US_PER_SEC) "a.dat" true 10000000 deb_acts /\
  exists t, dict_get (file_timestamps (run_seq ex_handler deb_state deb_acts)) "a.dat" = Some t /\
            clock (run_seq ex_handler deb_state deb_acts) - t < inactivity_period ex_handler * US_PER_SEC.
Proof.
  split; [vm_compute; repeat split; reflexivity|].
  refine (proj1 (proj1 (C4_debounce ex_handler "a.dat" 10000000 deb_acts deb_state (ex_file EmptyString)
                          _ _ _ _ _ _ _ _))).
  - repeat constructor. intros [].
  - vm_compute. reflexivity.
  - vm_compute. reflexivity.
  - reflexivity.
  - apply Z.ltb_lt. vm_compute. reflexivity.
  - apply Z.leb_le. vm_compute. reflexivity.
  - vm_compute. reflexivity.
  - vm_compute. repeat split; reflexivity.
Defined.

(** Claim C4, counterexample: a ready file whose stat is refused keeps its
    entry and is dispatched again by every later poll. *)
Lemma C4_refused_file_redispatched :
  let s := set_fs (fun _ => [("a.dat", mkFileInfo 10 ex_ctime EmptyString false true)]) (ex_state EmptyString) in
  let fin := run_seq ex_handler s [APoll; ATick 5000000; APoll] in
  dispatch_count "a.dat" (logs fin) = 2%nat /\ dict_get (file_timestamps fin) "a.dat" = Some 0.
Proof. vm_compute. split; reflexivity. Qed.

(** ** The sequential invariant *)

Lemma strictly_decreasing_cons x l :
  Forall (fun y => y < x) l -> strictly_decreasing l -> strictly_decreasing (x :: l).
Proof. destruct l as [|y l]; cbn; [auto|]. intros Hf Hs. inversion Hf; subst. auto. Qed.

Lemma strictly_decreasing_below x l : strictly_decreasing (x :: l) -> Forall (fun y => y < x) l.
Proof.
  revert x. induction l as [|y l IH]; intros x H; [constructor|].
  destruct H as [Hyx Hs]. constructor; [exact Hyx|].
  eapply Forall_impl; [|exact (IH y Hs)]. cbv beta. intros z Hz. lia.
Qed.

Lemma strictly_decreasing_nodup l : strictly_decreasing l -> NoDup l.
Proof.
  induction l as [|x l IH]; intros H; [constructor|].
  constructor.
  - intros Hin. pose proof (strictly_decreasing_below x l H) as Hb.
    rewrite Forall_forall in Hb. specialize (Hb x Hin). lia.
  - apply IH. destruct l; [exact I | exact (proj2 H)].
Qed.

Lemma in_keys_same {V} (d d' : dict V) k :
  dict_get d' k = dict_get d k -> In k (dict_keys d) -> In k (dict_keys d').
Proof.
  intros E Hin. destruct (in_keys_dict_get d k Hin) as [v Hv].
  apply (dict_get_in_keys d' k v). congruence.
Qed.

Lemma in_keys_none {V} (d : dict V) k : dict_get d k = None -> ~ In k (dict_keys d).
Proof. intros E Hin. destruct (in_keys_dict_get d k Hin) as [v Hv]. congruence. Qed.

Lemma seq_inv_set_logs f st : seq_inv (set_logs f st) = seq_inv st.
Proof. reflexivity. Qed.

Lemma should_track_true st p :
  should_track_answer st p = inl true ->
  exists fi, dict_get (fs st) p = Some fi /\ marker st p < f_mtime fi.
Proof.
  unfold should_track_answer. destruct (dict_get (fs st) p) as [fi|]; [|discriminate].
  destruct (f_stat_ok fi); [|discriminate]. intros E. injection E as E.
  exists fi. split; [reflexivity | now apply Z.ltb_lt].
Qed.

(** Dispatching a tracked path keeps the invariant: the revision it reads
    is the one whose mtime it captured, newer than every revision read
    before, and it becomes the marker. *)
Lemma process_file_inv h q st :
  seq_inv st -> In q (dict_keys (file_timestamps st)) -> seq_inv (snd (process_file h q st)).
Proof.
  intros (Hnd & Hfs & Hts & Hrd) Hq.
  destruct (process_file_frame h q st) as (_ & Efs & Eclk & Nd & Oth & Out & Erd & _).
  set (st' := snd (process_file h q st)) in *.
  destruct (Hts q Hq) as [Hqc Hqm].
  unfold dispatch_outcome in Out.
  (* the marker of [q] only grows, and the read revision is the new marker *)
  assert (Hq' : marker st q <= marker st' q /\
                (reads st' = reads st \/
                 exists fi, dict_get (fs st) q = Some fi /\ marker st' q = f_mtime fi /\
                            marker st q < f_mtime fi /\
                            reads st' = (q, f_mtime fi) :: reads st)).
  { destruct (dict_get (fs st) q) as [fi|] eqn:Hfq; [destruct (f_stat_ok fi) eqn:Hok|].
    - destruct Out as [_ Emk]. rewrite (marker_some st' q _ Emk).
      specialize (Hqm fi eq_refl). split; [lia|].
      destruct Erd as [Erd|[fi' [Hfi' [_ Erd]]]]; [left; exact Erd|].
      right. injection Hfi' as <-. exists fi. auto.
    - destruct Out as [_ Emk]. rewrite (marker_eq st st' q Emk). split; [lia|].
      destruct Erd as [Erd|[fi' [Hfi' [Hok' _]]]]; [left; exact Erd|].
      injection Hfi' as <-. congruence.
    - destruct Out as [_ Emk]. rewrite (marker_eq st st' q Emk). split; [lia|].
      destruct Erd as [Erd|[fi' [Hfi' _]]]; [left; exact Erd | discriminate]. }
  assert (Hrest : forall p, q <> p -> reads_of p (reads st') = reads_of p (reads st)).
  { intros p Hne. destruct Erd as [Erd|[fi [_ [_ Erd]]]]; rewrite Erd; [reflexivity|].
    rewrite reads_of_cons. destruct (String.eqb_spec q p); [contradiction | reflexivity]. }
  split; [exact (Nd Hnd)|].
  split; [intros p fi Hp; rewrite Efs in Hp; rewrite Eclk; exact (Hfs p fi Hp)|].
  split.
  - intros p Hp. rewrite Eclk. setoid_rewrite Efs.
    destruct (String.eqb_spec q p) as [<-|Hne].
    + destruct (dict_get (fs st) q) as [fi|] eqn:Hfq; [destruct (f_stat_ok fi) eqn:Hok|].
      * exfalso. exact (in_keys_none _ _ (proj1 Out) Hp).
      * rewrite (marker_eq st st' q (proj2 Out)). exact (conj Hqc Hqm).
      * exfalso. exact (in_keys_none _ _ (proj1 Out) Hp).
    + destruct (Oth p Hne) as [Ets Emk]. rewrite (marker_eq st st' p Emk).
      apply Hts. apply (in_keys_same _ _ p (eq_sym Ets) Hp).
  - intros p. destruct (String.eqb_spec q p) as [<-|Hne].
    + destruct (Hrd q) as [Hsd Hle]. destruct Hq' as [Hmono [Erd'|[fi [Hfq [Em [Hlt Erd']]]]]].
      * rewrite Erd'. split; [exact Hsd|].
        eapply Forall_impl; [|exact Hle]. cbv beta. intros m Hm. lia.
      * rewrite Erd', reads_of_cons, String.eqb_refl, Em. split.
        -- apply strictly_decreasing_cons; [|exact Hsd].
           eapply Forall_impl; [|exact Hle]. cbv beta. intros m Hm. lia.
        -- constructor; [lia|].
           eapply Forall_impl; [|exact Hle]. cbv beta. intros m Hm. lia.
    + rewrite (Hrest p Hne). destruct (Oth p Hne) as [_ Emk].
      rewrite (marker_eq st st' p Emk). exact (Hrd p).
Qed.

Lemma process_files_inv h files st :
  seq_inv st -> NoDup files ->
  (forall q, In q files -> In q (dict_keys (file_timestamps st))) ->
  seq_inv (snd (process_files h files st)).
Proof.
  revert st. induction files as [|q r IH]; intros st Hinv Hnd Hin; [exact Hinv|].
  inversion Hnd as [|? ? Hq Hr]; subst.
  cbn [process_files]. unfold bind.
  destruct (process_file_frame h q st) as (E1 & _ & _ & _ & Oth & _).
  pose proof (process_file_inv h q st Hinv (Hin q (or_introl eq_refl))) as Hinv1.
  destruct (process_file h q st) as [res st1]. cbn in E1, Oth, Hinv1. subst res.
  apply (IH st1 Hinv1 Hr). intros q' Hq'.
  assert (q <> q') by (intros ->; contradiction).
  apply (in_keys_same _ _ q' (proj1 (Oth q' H))). apply Hin. right. exact Hq'.
Qed.

Lemma poll_inv h st : seq_inv st -> seq_inv (snd (check_and_process_files h st)).
Proof.
  intros Hinv.
  unfold check_and_process_files, bind, time_time, gets. cbn beta iota.
  destruct (collect_ready_spec h (clock st) (file_timestamps st) st) as [n [E _]].
  rewrite E. cbn beta iota.
  apply process_files_inv.
  - rewrite seq_inv_set_logs. exact Hinv.
  - apply ready_list_nodup. exact (proj1 Hinv).
  - intros q Hq. apply (ready_list_in h _ _ q (proj1 Hinv)) in Hq as [t [Et _]].
    exact (dict_get_in_keys _ _ _ Et).
Qed.

(** A passing event tracks a file whose mtime is above its marker. *)
Lemma event_inv h a p st :
  a = ACreated p \/ a = AModified p -> seq_inv st -> seq_inv (snd (run_action h a st)).
Proof.
  intros Ha Hinv. pose proof Hinv as (Hnd & Hfs & Hts & Hrd).
  destruct (event_effect h a p st Ha) as [n [_ E]]. rewrite E.
  destruct (endswith p ".dat"); [|exact Hinv].
  destruct (should_track_answer st p) as [[|]|e] eqn:Hans; try exact Hinv.
  destruct (should_track_true st p Hans) as [fi [Hfi Hlt]].
  split; [exact (nodup_keys_set _ _ _ Hnd)|].
  split; [exact Hfs|].
  split; [|exact Hrd].
  intros q Hq. cbn in Hq. apply in_keys_set in Hq as [->|Hq]; [|exact (Hts q Hq)].
  pose proof (Hfs p fi Hfi).
  split; [change (marker st p < clock st); lia|].
  intros fi0 Hfi0. change (dict_get (fs st) p = Some fi0) in Hfi0.
  rewrite Hfi in Hfi0. injection Hfi0 as <-. exact Hlt.
Qed.

Lemma action_inv h a st : seq_inv st -> seq_inv (snd (run_action h a st)).
Proof.
  intros Hinv. pose proof Hinv as (Hnd & Hfs & Hts & Hrd).
  destruct a as [p c|p|p|p|d|].
  - (* another process writes [p]: its mtime is now *)
    cbn [run_action]. rewrite write_file_fs.
    set (fi' := match dict_get (fs st) p with
                | Some fi => mkFileInfo (clock st) (f_ctime fi) c (f_stat_ok fi) (f_readable fi)
                | None => mkFileInfo (clock st) (clock st) c true true
                end).
    assert (Hm : f_mtime fi' = clock st) by (subst fi'; destruct (dict_get (fs st) p); reflexivity).
    split; [exact Hnd|]. split; [|split; [|exact Hrd]].
    + intros q fi Hq. cbn in Hq |- *. destruct (String.eqb_spec p q) as [<-|Hne].
      * rewrite dict_get_set_eq in Hq. injection Hq as <-. lia.
      * rewrite dict_get_set_neq in Hq by exact Hne. exact (Hfs q fi Hq).
    + intros q Hq. destruct (Hts q Hq) as [Hc Hm']. split; [exact Hc|].
      intros fi Hfi. cbn in Hfi. destruct (String.eqb_spec p q) as [<-|Hne].
      * rewrite dict_get_set_eq in Hfi. injection Hfi as <-. change (marker st p < f_mtime fi'). lia.
      * rewrite dict_get_set_neq in Hfi by exact Hne. exact (Hm' fi Hfi).
  - (* another process deletes [p] *)
    cbn [run_action]. unfold modify. cbn [snd].
    split; [exact Hnd|]. split; [|split; [|exact Hrd]].
    + intros q fi Hq. cbn in Hq |- *. destruct (String.eqb_spec p q) as [<-|Hne].
      * rewrite dict_get_pop_eq in Hq. discriminate.
      * rewrite dict_get_pop_neq in Hq by exact Hne. exact (Hfs q fi Hq).
    + intros q Hq. destruct (Hts q Hq) as [Hc Hm']. split; [exact Hc|].
      intros fi Hfi. cbn in Hfi. destruct (String.eqb_spec p q) as [<-|Hne].
      * rewrite dict_get_pop_eq in Hfi. discriminate.
      * rewrite dict_get_pop_neq in Hfi by exact Hne. exact (Hm' fi Hfi).
  - (* [on_created] *)
    exact (event_inv h _ p st (or_introl eq_refl) Hinv).
  - (* [on_modified] *)
    exact (event_inv h _ p st (or_intror eq_refl) Hinv).
  - (* the main loop sleeps *)
    cbn [run_action]. unfold modify. cbn [snd]. pose proof (N2Z.is_nonneg d).
    split; [exact Hnd|]. split; [|split; [|exact Hrd]].
    + intros q fi Hq. cbn. pose proof (Hfs q fi Hq). lia.
    + intros q Hq. destruct (Hts q Hq) as [Hc Hm']. split; [change (marker st q < clock st + Z.of_N d); lia|].
      exact Hm'.
  - (* a poll cycle *)
    exact (poll_inv h st Hinv).
Qed.

Lemma run_seq_inv h st acts : seq_inv st -> seq_inv (run_seq h st acts).
Proof.
  revert st. induction acts as [|a r IH]; intros st Hinv; [exact Hinv|].
  cbn [run_seq]. apply IH. apply action_inv. exact Hinv.
Qed.

(** ** C2: at most one conversion per revision

    Claim C2 (amended): when every write, event callback and poll cycle runs
    to completion before the next one starts, the invariant [seq_inv] holds
    throughout, so the revisions (mtimes) of a path read by conversions are
    strictly increasing over time, pairwise distinct and never above the
    path's marker: no revision is converted twice. *)
Theorem C2_sequential_revisions_once (h : Handler) (st : State) (acts : list action)
  (Hinv : seq_inv st) :
  seq_inv (run_seq h st acts) /\
  forall p, strictly_decreasing (reads_of p (reads (run_seq h st acts))) /\
            NoDup (reads_of p (reads (run_seq h st acts))) /\
            Forall (fun m => m <= marker (run_seq h st acts) p) (reads_of p (reads (run_seq h st acts))).
Proof.
  pose proof (run_seq_inv h st acts Hinv) as Hfin.
  split; [exact Hfin|]. intros p.
  destruct Hfin as (_ & _ & _ & Hrd). destruct (Hrd p) as [Hsd Hle].
  split; [exact Hsd|]. split; [exact (strictly_decreasing_nodup _ Hsd) | exact Hle].
Qed.


Lemma C2_sequential_revisions_once_witness :
  seq_inv (ex_state (line_of "1" "x")) /\
  reads_of "a.dat" (reads (run_seq ex_handler (ex_state (line_of "1" "x")) c2_acts)) = [100000001; 10] /\
  NoDup (reads_of "a.dat" (reads (run_seq ex_handler (ex_state (line_of "1" "x")) c2_acts))).
Proof.
  assert (Hinv : seq_inv (ex_state (line_of "1" "x"))).
  { split; [repeat constructor; intros []|].
    split; [intros p fi H; cbn in H; destruct (String.eqb p "a.dat");
            [injection H as <-; cbn; lia | discriminate]|].
    split; [intros p [<-|[]]; split; [vm_compute; reflexivity|];
            intros fi H; vm_compute in H; injection H as <-; vm_compute; reflexivity|].
    intros p. split; [exact I | constructor]. }
  split; [exact Hinv|]. split; [vm_compute; reflexivity|].
  exact (proj1 (proj2 (proj2 (C2_sequential_revisions_once ex_handler _ c2_acts Hinv) "a.dat"))).
Defined.


(** Claim C2, counterexample: another process writes "a.dat" after the
    poll cycle captured its mtime (10) and before the conversion reads it.
    The cycle converts the new revision but records the old mtime as
    marker, so the [on_modified] delivered after the cycle re-queues the
    file and the next cycle converts the same revision (mtime 100000001)
    a second time: its line is appended twice, and the revision at mtime 10
    is never converted.  No callback runs inside a poll cycle here. *)
Lemma C2_revision_converted_twice :
  let fin := fst (run_interleaved ex_handler (ex_state (line_of "1" "x")) PIdle c2_trace) in
  reads_of "a.dat" (reads fin) = [100000001; 100000001] /\
  dict_get (out fin) ex_out_path =
  Some (HEADER1 ++ HEADER2 ++ "01/01/2024 10:00:02.000000,y" ++ NL
        ++ "01/01/2024 10:00:02.000000,y" ++ NL).
Proof. split; vm_compute; reflexivity. Qed.

(** ** C9: no lock between the observer thread and the poll loop

    Claim C9 (amended): the callbacks and the poll loop are not mutually
    exclusive; [LRMetaDataHandler] takes no lock and nothing else serializes
    them.  An [on_modified] delivered after a conversion and before its
    commit stores a fresh ActivityRecord entry, and the commit then pops it:
    the event is lost and the marker is the mtime captured before the
    conversion. *)
Theorem C9_event_lost_at_commit (h : Handler) (p : string) (m : Z) (rest : list string) (st : State) :
  dict_get (file_timestamps (fst (run_interleaved h st (PConverted p m rest)
                                    [IEnv (AModified p); IPoller]))) p = None /\
  dict_get (processed_mtimes (fst (run_interleaved h st (PConverted p m rest)
                                     [IEnv (AModified p); IPoller]))) p = Some m /\
  snd (run_interleaved h st (PConverted p m rest) [IEnv (AModified p); IPoller]) = PTodo rest /\
  (endswith p ".dat" = true -> should_track_answer st p = inl true ->
   dict_get (file_timestamps (snd (run_action h (AModified p) st))) p = Some (clock st)).
Proof.
  assert (Hev : endswith p ".dat" = true -> should_track_answer st p = inl true ->
                dict_get (file_timestamps (snd (run_action h (AModified p) st))) p = Some (clock st)).
  { intros Hdat Hans.
    destruct (event_effect h (AModified p) p st (or_intror eq_refl)) as [n [_ E]].
    rewrite E, Hdat, Hans. apply dict_get_set_eq. }
  cbn [run_interleaved].
  set (st1 := snd (run_action h (AModified p) st)) in *. clearbody st1.
  unfold poller_step, stage_commit, bind, modify, ret. cbn.
  split; [apply dict_get_pop_eq|]. split; [apply dict_get_set_eq|]. split; [reflexivity|].
  exact Hev.
Qed.

Lemma C9_event_lost_at_commit_witness :
  endswith "a.dat" ".dat" = true /\
  should_track_answer (ex_state EmptyString) "a.dat" = inl true /\
  dict_get (file_timestamps (snd (run_action ex_handler (AModified "a.dat") (ex_state EmptyString)))) "a.dat"
  = Some 100000000.
Proof.
  split; [reflexivity|]. split; [vm_compute; reflexivity|].
  exact (proj2 (proj2 (proj2 (C9_event_lost_at_commit ex_handler "a.dat" 10 [] (ex_state EmptyString))))
           eq_refl ltac:(vm_compute; reflexivity)).
Defined.



(** Claim C9, counterexample: in the interleaving [c9_trace] the new
    revision of "a.dat" (mtime 100000001) ends untracked with marker 10;
    no serial order of the same poll and actions (the poll placed before,
    between or after them) reaches this pair of ActivityRecord entry and
    marker. *)
Lemma C9_lost_update :
  let s := ex_state (line_of "1" "x") in
  let fin := fst (run_interleaved ex_handler s PIdle c9_trace) in
  dict_get (file_timestamps fin) "a.dat" = None /\
  dict_get (processed_mtimes fin) "a.dat" = Some 10 /\
  option_map f_mtime (dict_get (fs fin) "a.dat") = Some 100000001 /\
  forall k, (k <= 3)%nat ->
    let ser := run_seq ex_handler s (firstn k c9_acts ++ APoll :: skipn k c9_acts) in
    (dict_get (file_timestamps ser) "a.dat", dict_get (processed_mtimes ser) "a.dat")
    <> (None, Some 10).
Proof.
  cbv zeta. split; [vm_compute; reflexivity|]. split; [vm_compute; reflexivity|].
  split; [vm_compute; reflexivity|].
  intros k Hk. destruct k as [|[|[|[|k]]]]; [vm_compute; discriminate.. | lia].
Qed.

(** An offset too large for a [timedelta] raises [OverflowError], which the
    loop over the lines does not catch: the whole file fails and nothing is
    appended, not even the good second line. *)
Example overflowing_offset_aborts_file :
  let st := snd (convert_lr_to_epic "a.dat" "out" (ex_state (line_of "1e300" "5" ++ line_of "1" "6"))) in
  logs st = [LogFailedConvert "a.dat"] /\ out st = [].
Proof. vm_compute. split; reflexivity. Qed.

(** * Further properties of the program *)


Lemma poll_never_raises h st : fst (check_and_process_files h st) = inl tt.
Proof.
  unfold check_and_process_files, bind, time_time, gets. cbn beta iota.
  destruct (collect_ready_spec h (clock st) (file_timestamps st) st) as [n [E _]].
  rewrite E. apply process_files_frame.
Qed.

(** [check_and_process_files] never raises, whatever the state: so the
    main loop never reaches its [except] branch ("Watchdog crashed"), and
    [n] iterations of it are [n] polls each followed by a 5 s sleep. *)
Theorem main_loop_never_raises (h : Handler) (n : nat) (st : State) :
  fst (main_loop h n st) = inl tt /\
  snd (main_loop h n st) = run_seq h st (concat (repeat [APoll; ATick 5000000] n)).
Proof.
  revert st. induction n as [|n IH]; intros st; [split; reflexivity|].
  cbn [main_loop]. unfold bind at 1.
  pose proof (poll_never_raises h st) as E.
  destruct (check_and_process_files h st) as [r st1] eqn:Ep. cbn in E. subst r.
  unfold bind, modify. cbn [repeat concat app run_seq run_action].
  rewrite Ep. cbn [snd]. apply IH.
Qed.

(** ** A poll cycle: which files it dispatches *)

Lemma dispatches_app a b : dispatches (app a b) = app (dispatches a) (dispatches b).
Proof. induction a as [|e a IH]; [reflexivity|]. destruct e; cbn; rewrite ?IH; reflexivity. Qed.

Lemma dispatches_nil_of_count l : (forall p, dispatch_count p l = 0%nat) -> dispatches l = [].
Proof.
  induction l as [|e l IH]; intros H; [reflexivity|].
  destruct e; cbn; try (apply IH; intros p; specialize (H p); unfold dispatch_count in *; cbn in H; exact H).
  match goal with |- ?q :: _ = _ => specialize (H q) end.
  unfold dispatch_count in H. cbn in H. rewrite String.eqb_refl in H. discriminate.
Qed.

Lemma dispatches_convert new : Forall is_convert_log new -> dispatches new = [].
Proof. induction 1 as [|e l He _ IH]; [reflexivity|]. destruct e; cbn in *; tauto. Qed.

Lemma process_file_dispatches h q st :
  exists new, logs (snd (process_file h q st)) = app new (logs st) /\ dispatches new = [q].
Proof.
  destruct (dict_get (fs st) q) as [fi|] eqn:Hq; [destruct (f_stat_ok fi) eqn:Hok|].
  - destruct (process_file_stat_ok h q st fi Hq Hok)
      as (_ & _ & _ & _ & _ & _ & _ & _ & _ & [new [Elog Hnew]]).
    exists (app new [LogProcessing q]). rewrite Elog, <- app_assoc. split; [reflexivity|].
    rewrite dispatches_app, (dispatches_convert new Hnew). reflexivity.
  - rewrite (process_file_stat_refused h q st fi Hq Hok).
    exists [LogErrProcessing q; LogProcessing q]. destruct st; split; reflexivity.
  - rewrite (process_file_missing h q st Hq).
    exists [LogDisappeared q; LogProcessing q]. destruct st; split; reflexivity.
Qed.

Lemma process_files_dispatches h files st :
  exists new, logs (snd (process_files h files st)) = app new (logs st) /\
              dispatches new = rev files.
Proof.
  revert st. induction files as [|q r IH]; intros st.
  - exists []. split; reflexivity.
  - cbn [process_files]. unfold bind.
    destruct (process_file_frame h q st) as (E1 & _).
    destruct (process_file_dispatches h q st) as [n1 [El1 Hn1]].
    destruct (process_file h q st) as [res st1]. cbn in E1, El1. subst res.
    destruct (IH st1) as [n2 [El2 Hn2]].
    exists (app n2 n1). rewrite El2, El1, app_assoc. split; [reflexivity|].
    rewrite dispatches_app, Hn1, Hn2. reflexivity.
Qed.

(** A poll cycle leaves the watched directory alone and dispatches
    ("Processing file") exactly the paths whose recorded last activity is
    more than inactivity_period seconds before the current time, each once,
    in the insertion order of ActivityRecord. *)
Theorem poll_dispatches_ready (h : Handler) (st : State)
  (Hnd : NoDup (dict_keys (file_timestamps st))) :
  fs (snd (check_and_process_files h st)) = fs st /\
  exists new, logs (snd (check_and_process_files h st)) = app new (logs st) /\
    rev (dispatches new) = ready_list h (clock st) (file_timestamps st) /\
    NoDup (ready_list h (clock st) (file_timestamps st)) /\
    (forall p, In p (ready_list h (clock st) (file_timestamps st)) <->
       exists t, dict_get (file_timestamps st) p = Some t /\
                 inactivity_period h * US_PER_SEC < clock st - t).
Proof.
  split; [exact (proj1 (poll_frame h st Hnd))|].
  unfold check_and_process_files, bind, time_time, gets. cbn beta iota.
  destruct (collect_ready_spec h (clock st) (file_timestamps st) st) as [n [E Hn]].
  rewrite E. cbn beta iota.
  set (rl := ready_list h (clock st) (file_timestamps st)).
  destruct (process_files_dispatches h rl (set_logs (app n) st)) as [n2 [El Hn2]].
  assert (El0 : logs (set_logs (app n) st) = app n (logs st)) by (destruct st; reflexivity).
  exists (app n2 n). rewrite El, El0, app_assoc. split; [reflexivity|].
  split; [rewrite dispatches_app, Hn2, (dispatches_nil_of_count n Hn), app_nil_r; apply rev_involutive|].
  split; [exact (ready_list_nodup h _ _ Hnd)|].
  intros p. exact (ready_list_in h _ _ p Hnd).
Qed.

Lemma poll_dispatches_ready_witness :
  NoDup (dict_keys (file_timestamps (ex_state EmptyString))) /\
  exists new, logs (snd (check_and_process_files ex_handler (ex_state EmptyString))) =
                app new (logs (ex_state EmptyString)) /\
    rev (dispatches new) = ["a.dat"].
Proof.
  assert (Hnd : NoDup (dict_keys (file_timestamps (ex_state EmptyString))))
    by (vm_compute; repeat constructor; intros []).
  split; [exact Hnd|].
  destruct (poll_dispatches_ready ex_handler (ex_state EmptyString) Hnd) as [_ [new [A [B _]]]].
  exists new. split; [exact A|]. rewrite B. vm_compute. reflexivity.
Defined.



(** ** Output files only grow; ActivityRecord gains only .dat paths *)

Lemma out_grows_refl o : out_grows o o.
Proof. intros q c H. exists EmptyString. now rewrite H, str_app_nil_r. Qed.

Lemma out_grows_trans o1 o2 o3 : out_grows o1 o2 -> out_grows o2 o3 -> out_grows o1 o3.
Proof.
  intros A B q c H. destruct (A q c H) as [s1 H1]. destruct (B q _ H1) as [s2 H2].
  exists (s1 ++ s2). now rewrite H2, str_app_assoc.
Qed.

Lemma out_grows_appended o op data : out_grows o (appended o op data).
Proof.
  intros q c H. destruct (String.eqb_spec op q) as [<-|Hne].
  - rewrite appended_get_eq, H. eauto.
  - rewrite appended_get_neq by exact Hne. exists EmptyString. now rewrite H, str_app_nil_r.
Qed.

Lemma convert_out_grows p base st : out_grows (out st) (out (snd (convert_lr_to_epic p base st))).
Proof.
  destruct (convert_effect p base st) as (_ & _ & _ & _ & [E|[data E]] & _); rewrite E;
    [apply out_grows_refl | apply out_grows_appended].
Qed.

Lemma process_file_out h q st : out_grows (out st) (out (snd (process_file h q st))).
Proof.
  destruct (dict_get (fs st) q) as [fi|] eqn:Hq; [destruct (f_stat_ok fi) eqn:Hok|].
  - destruct (process_file_stat_ok h q st fi Hq Hok)
      as (_ & _ & _ & _ & _ & _ & _ & _ & [E|[data E]] & _); rewrite E;
      [apply out_grows_refl | apply out_grows_appended].
  - rewrite (process_file_stat_refused h q st fi Hq Hok). apply out_grows_refl.
  - rewrite (process_file_missing h q st Hq). apply out_grows_refl.
Qed.

Lemma process_file_keys h q st :
  incl (dict_keys (file_timestamps (snd (process_file h q st)))) (dict_keys (file_timestamps st)).
Proof.
  destruct (process_file_frame h q st) as (_ & _ & _ & _ & Oth & Out & _).
  intros p Hp. destruct (String.eqb_spec q p) as [<-|Hne].
  - unfold dispatch_outcome in Out.
    destruct (dict_get (fs st) q) as [fi|]; [destruct (f_stat_ok fi)|].
    + exfalso. exact (in_keys_none _ _ (proj1 Out) Hp).
    + exact (in_keys_same _ _ q (eq_sym (proj1 Out)) Hp).
    + exfalso. exact (in_keys_none _ _ (proj1 Out) Hp).
  - exact (in_keys_same _ _ p (eq_sym (proj1 (Oth p Hne))) Hp).
Qed.

Lemma process_file_read_paths h q st :
  map fst (reads (snd (process_file h q st))) = map fst (reads st) \/
  map fst (reads (snd (process_file h q st))) = q :: map fst (reads st).
Proof.
  destruct (process_file_frame h q st) as (_ & _ & _ & _ & _ & _ & [E|[fi [_ [_ E]]]] & _);
    rewrite E; [left|right]; reflexivity.
Qed.

Lemma process_files_effect h files st :
  incl (dict_keys (file_timestamps (snd (process_files h files st)))) (dict_keys (file_timestamps st)) /\
  out_grows (out st) (out (snd (process_files h files st))) /\
  incl (map fst (reads (snd (process_files h files st)))) (map fst (reads st) ++ files).
Proof.
  revert st. induction files as [|q r IH]; intros st.
  - cbn. split; [apply incl_refl|]. split; [apply out_grows_refl|]. rewrite app_nil_r. apply incl_refl.
  - cbn [process_files]. unfold bind.
    destruct (process_file_frame h q st) as (E1 & _).
    pose proof (process_file_keys h q st) as K1.
    pose proof (process_file_out h q st) as O1.
    pose proof (process_file_read_paths h q st) as R1.
    destruct (process_file h q st) as [res st1]. cbn in E1, K1, O1, R1. subst res.
    destruct (IH st1) as (K2 & O2 & R2).
    split; [exact (incl_tran K2 K1)|]. split; [exact (out_grows_trans _ _ _ O1 O2)|].
    intros x Hx. apply R2 in Hx. apply in_app_or in Hx as [Hx|Hx].
    + destruct R1 as [R1|R1]; rewrite R1 in Hx.
      * apply in_or_app. now left.
      * destruct Hx as [<-|Hx]; apply in_or_app; [right; now left | now left].
    + apply in_or_app. right. now right.
Qed.

Lemma ready_list_incl h ct items : incl (ready_list h ct items) (dict_keys items).
Proof.
  intros p Hp. unfold ready_list in Hp. apply in_map_iff in Hp as [[k v] [<- Hin]].
  apply filter_In in Hin as [Hin _]. unfold dict_keys. now apply (in_map fst) in Hin.
Qed.

Lemma poll_effect h st :
  incl (dict_keys (file_timestamps (snd (check_and_process_files h st)))) (dict_keys (file_timestamps st)) /\
  out_grows (out st) (out (snd (check_and_process_files h st))) /\
  incl (map fst (reads (snd (check_and_process_files h st))))
       (map fst (reads st) ++ dict_keys (file_timestamps st)).
Proof.
  unfold check_and_process_files, bind, time_time, gets. cbn beta iota.
  destruct (collect_ready_spec h (clock st) (file_timestamps st) st) as [n [E _]].
  rewrite E. cbn beta iota.
  destruct (process_files_effect h (ready_list h (clock st) (file_timestamps st)) (set_logs (app n) st))
    as (K & O & R).
  split; [exact K|]. split; [exact O|].
  eapply incl_tran; [exact R|]. apply incl_app; [apply incl_appl, incl_refl|].
  apply incl_appr, ready_list_incl.
Qed.

Lemma incl_cons_app {A} (x : A) l m : incl (x :: l) (x :: l ++ m).
Proof. intros y [<-|Hy]; [now left | right; apply in_or_app; now left]. Qed.

Lemma poller_step_effect h ps st :
  incl (dict_keys (file_timestamps (snd (poller_step h ps st)))) (dict_keys (file_timestamps st)) /\
  out_grows (out st) (out (snd (poller_step h ps st))) /\
  incl (map fst (reads (snd (poller_step h ps st)))) (map fst (reads st) ++ poller_paths ps) /\
  (forall ps', fst (poller_step h ps st) = inl ps' ->
     incl (poller_paths ps') (poller_paths ps ++ dict_keys (file_timestamps st))).
Proof.
  destruct ps as [|[|p rest]|p m rest|p m rest].
  - cbn [poller_step]. unfold bind, time_time, gets. cbn beta iota.
    destruct (collect_ready_spec h (clock st) (file_timestamps st) st) as [n [E _]].
    rewrite E. cbn. destruct st; cbn.
    split; [apply incl_refl|]. split; [apply out_grows_refl|].
    split; [rewrite app_nil_r; apply incl_refl|].
    intros ps' H. injection H as <-. apply ready_list_incl.
  - cbn. split; [apply incl_refl|]. split; [apply out_grows_refl|].
    split; [apply incl_appl, incl_refl|]. intros ps' H. injection H as <-. intros x [].
  - cbn [poller_step]. unfold stage_capture, getmtime, bind, log, modify, try_except, ret.
    destruct st as [fs0 o ro c z ts mk lg rd]; cbn.
    destruct (dict_get fs0 p) as [fi|]; [destruct (f_stat_ok fi)|]; cbn.
    + split; [apply incl_refl|]. split; [apply out_grows_refl|].
      split; [apply incl_appl, incl_refl|].
      intros ps' H. injection H as <-. apply incl_cons_app.
    + split; [apply incl_refl|]. split; [apply out_grows_refl|].
      split; [apply incl_appl, incl_refl|].
      intros ps' H. injection H as <-. intros x Hx. simpl. right. apply in_or_app. now left.
    + split; [intros x Hx; apply in_keys_pop in Hx; tauto|]. split; [apply out_grows_refl|].
      split; [apply incl_appl, incl_refl|].
      intros ps' H. injection H as <-. intros x Hx. simpl. right. apply in_or_app. now left.
  - cbn [poller_step]. unfold bind, try_except, stage_convert, ret.
    destruct (convert_effect p (output_dir h) st) as (E1 & Ec & _ & Er & _).
    pose proof (convert_out_grows p (output_dir h) st) as O.
    destruct (convert_lr_to_epic p (output_dir h) st) as [r st1]. cbn in E1, Ec, Er, O |- *. subst r.
    unfold core in Ec. injection Ec as _ _ _ Ets _. cbn [fst snd]. rewrite Ets.
    split; [apply incl_refl|]. split; [exact O|].
    split.
    + destruct Er as [Er|[fi [_ Er]]]; rewrite Er; [apply incl_appl, incl_refl|].
      intros x [<-|Hx]; apply in_or_app; [right; now left | now left].
    + intros ps' H. injection H as <-. apply incl_cons_app.
  - cbn [poller_step]. unfold bind, stage_commit, modify, ret.
    destruct st as [fs0 o ro c z ts mk lg rd]; cbn.
    split; [intros x Hx; apply in_keys_pop in Hx; tauto|]. split; [apply out_grows_refl|].
    split; [apply incl_appl, incl_refl|].
    intros ps' H. injection H as <-. intros x Hx. simpl. right. apply in_or_app. now left.
Qed.

Lemma event_cases h a p st :
  a = ACreated p \/ a = AModified p ->
  snd (run_action h a st) = st \/
  (endswith p ".dat" = true /\ exists n,
     snd (run_action h a st) = set_ts (fun d => dict_set d p (clock st)) (set_logs (app n) st)).
Proof.
  intros Ha. destruct (event_effect h a p st Ha) as [n [_ E]]. rewrite E.
  destruct (endswith p ".dat") eqn:Hd; [|now left].
  destruct (should_track_answer st p) as [[|]|e]; try now left.
  right. split; [reflexivity|]. eauto.
Qed.

Lemma run_action_out h a st : out_grows (out st) (out (snd (run_action h a st))).
Proof.
  destruct a as [p c|p|p|p|d|].
  - cbn [run_action]. rewrite write_file_fs. apply out_grows_refl.
  - apply out_grows_refl.
  - destruct (event_cases h _ p st (or_introl eq_refl)) as [E|[_ [n E]]]; rewrite E;
      [apply out_grows_refl | destruct st; apply out_grows_refl].
  - destruct (event_cases h _ p st (or_intror eq_refl)) as [E|[_ [n E]]]; rewrite E;
      [apply out_grows_refl | destruct st; apply out_grows_refl].
  - apply out_grows_refl.
  - apply poll_effect.
Qed.

(** In any run, with polls, writes and event callbacks interleaved in any
    way, an existing output file is only ever appended to: its content at
    any point is a prefix of its content later. *)
Theorem output_append_only (h : Handler) (st : State) (ps : poller) (items : list item) :
  out_grows (out st) (out (fst (run_interleaved h st ps items))).
Proof.
  revert st ps. induction items as [|[|a] r IH]; intros st ps; cbn [run_interleaved].
  - apply out_grows_refl.
  - destruct (poller_step_effect h ps st) as (_ & O & _).
    destruct (poller_step h ps st) as [[ps'|e] st']; cbn [snd] in O;
      exact (out_grows_trans _ _ _ O (IH st' _)).
  - exact (out_grows_trans _ _ _ (run_action_out h a st) (IH _ ps)).
Qed.

Lemma run_action_dat h a st :
  Forall is_dat (dict_keys (file_timestamps st)) -> Forall is_dat (map fst (reads st)) ->
  Forall is_dat (dict_keys (file_timestamps (snd (run_action h a st)))) /\
  Forall is_dat (map fst (reads (snd (run_action h a st)))).
Proof.
  intros Hk Hr.
  assert (Hev : forall p, a = ACreated p \/ a = AModified p ->
            Forall is_dat (dict_keys (file_timestamps (snd (run_action h a st)))) /\
            Forall is_dat (map fst (reads (snd (run_action h a st))))).
  { intros p Ha. destruct (event_cases h a p st Ha) as [E|[Hd [n E]]]; rewrite E; [auto|].
    destruct st; cbn in *. split; [|exact Hr].
    apply Forall_forall. intros x Hx. apply in_keys_set in Hx as [->|Hx]; [exact Hd|].
    exact (proj1 (Forall_forall _ _) Hk x Hx). }
  destruct a as [p c|p|p|p|d|].
  - cbn [run_action]. rewrite write_file_fs. auto.
  - auto.
  - now apply (Hev p); left.
  - now apply (Hev p); right.
  - auto.
  - destruct (poll_effect h st) as (K & _ & R). cbn [run_action].
    split; [exact (incl_Forall K Hk)|].
    apply (incl_Forall R). apply Forall_app. auto.
Qed.

(** In any interleaved run, ActivityRecord only holds paths ending in
    ".dat", and every source file a conversion reads ends in ".dat",
    provided this holds at the start. *)
Theorem only_dat_tracked_and_read (h : Handler) (st : State) (ps : poller) (items : list item)
  (Hk : Forall is_dat (dict_keys (file_timestamps st)))
  (Hr : Forall is_dat (map fst (reads st)))
  (Hp : Forall is_dat (poller_paths ps)) :
  Forall is_dat (dict_keys (file_timestamps (fst (run_interleaved h st ps items)))) /\
  Forall is_dat (map fst (reads (fst (run_interleaved h st ps items)))).
Proof.
  revert st ps Hk Hr Hp. induction items as [|[|a] r IH]; intros st ps Hk Hr Hp; cbn [run_interleaved].
  - auto.
  - destruct (poller_step_effect h ps st) as (K & _ & R & P).
    destruct (poller_step h ps st) as [[ps'|e] st']; cbn [fst snd] in K, R, P;
      (apply IH; [exact (incl_Forall K Hk) | apply (incl_Forall R); apply Forall_app; auto |]).
    + apply (incl_Forall (P ps' eq_refl)). apply Forall_app. auto.
    + constructor.
  - destruct (run_action_dat h a st Hk Hr) as [Hk' Hr']. apply IH; auto.
Qed.

Lemma only_dat_tracked_and_read_witness :
  Forall is_dat (dict_keys (file_timestamps (ex_state (line_of "1" "x")))) /\
  Forall is_dat (map fst (reads (ex_state (line_of "1" "x")))) /\
  Forall is_dat (map fst (reads (fst (run_interleaved ex_handler (ex_state (line_of "1" "x")) PIdle c2_trace)))).
Proof.
  assert (Hk : Forall is_dat (dict_keys (file_timestamps (ex_state (line_of "1" "x")))))
    by (vm_compute; repeat constructor).
  assert (Hr : Forall is_dat (map fst (reads (ex_state (line_of "1" "x"))))) by (vm_compute; constructor).
  split; [exact Hk|]. split; [exact Hr|].
  exact (proj2 (only_dat_tracked_and_read ex_handler _ PIdle c2_trace Hk Hr ltac:(vm_compute; constructor))).
Defined.

(** ** Markers in sequential runs *)

Lemma process_file_marker_mono h q st :
  seq_inv st -> In q (dict_keys (file_timestamps st)) ->
  forall p, marker st p <= marker (snd (process_file h q st)) p.
Proof.
  intros (_ & _ & Hts & _) Hq p.
  destruct (process_file_frame h q st) as (_ & _ & _ & _ & Oth & Out & _).
  destruct (String.eqb_spec q p) as [<-|Hne].
  - unfold dispatch_outcome in Out.
    destruct (dict_get (fs st) q) as [fi|] eqn:Hf; [destruct (f_stat_ok fi)|].
    + rewrite (marker_some _ q _ (proj2 Out)). pose proof (proj2 (Hts q Hq) fi Hf). lia.
    + rewrite (marker_eq _ _ q (proj2 Out)). lia.
    + rewrite (marker_eq _ _ q (proj2 Out)). lia.
  - rewrite (marker_eq _ _ p (proj2 (Oth p Hne))). lia.
Qed.

Lemma process_files_marker_mono h files st :
  seq_inv st -> NoDup files ->
  (forall q, In q files -> In q (dict_keys (file_timestamps st))) ->
  forall p, marker st p <= marker (snd (process_files h files st)) p.
Proof.
  revert st. induction files as [|q r IH]; intros st Hinv Hnd Hin p; [cbn; lia|].
  inversion Hnd as [|? ? Hq Hr]; subst.
  cbn [process_files]. unfold bind.
  destruct (process_file_frame h q st) as (E1 & _ & _ & _ & Oth & _).
  pose proof (process_file_inv h q st Hinv (Hin q (or_introl eq_refl))) as Hinv1.
  pose proof (process_file_marker_mono h q st Hinv (Hin q (or_introl eq_refl)) p) as M1.
  destruct (process_file h q st) as [res st1]. cbn in E1, Oth, Hinv1, M1. subst res.
  assert (M2 : marker st1 p <= marker (snd (process_files h r st1)) p).
  { apply (IH st1 Hinv1 Hr). intros q' Hq'.
    assert (q <> q') by (intros ->; contradiction).
    apply (in_keys_same _ _ q' (proj1 (Oth q' H))). apply Hin. right. exact Hq'. }
  lia.
Qed.

Lemma poll_marker_mono h st :
  seq_inv st -> forall p, marker st p <= marker (snd (check_and_process_files h st)) p.
Proof.
  intros Hinv p.
  unfold check_and_process_files, bind, time_time, gets. cbn beta iota.
  destruct (collect_ready_spec h (clock st) (file_timestamps st) st) as [n [E _]].
  rewrite E. cbn beta iota.
  change (marker st p) with (marker (set_logs (app n) st) p).
  apply process_files_marker_mono.
  - rewrite seq_inv_set_logs. exact Hinv.
  - apply ready_list_nodup. exact (proj1 Hinv).
  - intros q Hq. apply ready_list_incl in Hq. exact Hq.
Qed.

Lemma action_marker_mono h a st :
  seq_inv st -> forall p, marker st p <= marker (snd (run_action h a st)) p.
Proof.
  intros Hinv p.
  destruct a as [q c|q|q|q|d|].
  - cbn [run_action]. rewrite write_file_fs. apply Z.eq_le_incl. destruct st; reflexivity.
  - apply Z.eq_le_incl. destruct st; reflexivity.
  - destruct (event_cases h _ q st (or_introl eq_refl)) as [E|[_ [n E]]]; rewrite E; [lia|].
    apply Z.eq_le_incl. destruct st; reflexivity.
  - destruct (event_cases h _ q st (or_intror eq_refl)) as [E|[_ [n E]]]; rewrite E; [lia|].
    apply Z.eq_le_incl. destruct st; reflexivity.
  - apply Z.eq_le_incl. destruct st; reflexivity.
  - exact (poll_marker_mono h st Hinv p).
Qed.

(** When actions run one at a time from a state satisfying [seq_inv], the
    ProcessedMarker of every path only grows. *)
Theorem marker_monotone (h : Handler) (st : State) (acts : list action) (Hinv : seq_inv st) :
  forall p, marker st p <= marker (run_seq h st acts) p.
Proof.
  revert st Hinv. induction acts as [|a r IH]; intros st Hinv p; cbn [run_seq]; [lia|].
  pose proof (action_marker_mono h a st Hinv p).
  pose proof (IH _ (action_inv h a st Hinv) p). lia.
Qed.

Lemma marker_monotone_witness :
  seq_inv (ex_state (line_of "1" "x")) /\
  marker (run_seq ex_handler (ex_state (line_of "1" "x")) c2_acts) "a.dat" = 100000001 /\
  marker (ex_state (line_of "1" "x")) "a.dat" <=
  marker (run_seq ex_handler (ex_state (line_of "1" "x")) c2_acts) "a.dat".
Proof.
  assert (Hinv : seq_inv (ex_state (line_of "1" "x"))).
  { split; [repeat constructor; intros []|].
    split; [intros p fi H; cbn in H; destruct (String.eqb p "a.dat");
            [injection H as <-; cbn; lia | discriminate]|].
    split; [intros p [<-|[]]; split; [vm_compute; reflexivity|];
            intros fi H; vm_compute in H; injection H as <-; vm_compute; reflexivity|].
    intros p. split; [exact I | constructor]. }
  split; [exact Hinv|]. split; [vm_compute; reflexivity|].
  exact (marker_monotone ex_handler _ c2_acts Hinv "a.dat").
Defined.

(** ** Duplicate events for a processed file *)

Lemma action_not_requeued h p a st :
  (forall c, a <> AWrite p c) ->
  NoDup (dict_keys (file_timestamps st)) ->
  dict_get (file_timestamps st) p = None ->
  (forall fi, dict_get (fs st) p = Some fi -> f_mtime fi <= marker st p) ->
  NoDup (dict_keys (file_timestamps (snd (run_action h a st)))) /\
  dict_get (file_timestamps (snd (run_action h a st))) p = None /\
  (forall fi, dict_get (fs (snd (run_action h a st))) p = Some fi ->
              f_mtime fi <= marker (snd (run_action h a st)) p) /\
  exists new, logs (snd (run_action h a st)) = app new (logs st) /\ dispatch_count p new = 0%nat.
Proof.
  intros Ha Hnd Hnot Hcur.
  assert (Hev : forall q, a = ACreated q \/ a = AModified q ->
     NoDup (dict_keys (file_timestamps (snd (run_action h a st)))) /\
     dict_get (file_timestamps (snd (run_action h a st))) p = None /\
     (forall fi, dict_get (fs (snd (run_action h a st))) p = Some fi ->
                 f_mtime fi <= marker (snd (run_action h a st)) p) /\
     exists new, logs (snd (run_action h a st)) = app new (logs st) /\ dispatch_count p new = 0%nat).
  { intros q Hq. destruct (event_effect h a q st Hq) as [n [Hn E]]. rewrite E.
    destruct (endswith q ".dat"); [|repeat split; auto; exists []; auto].
    destruct (should_track_answer st q) as [[|]|e] eqn:Hans;
      [|repeat split; auto; exists []; auto|repeat split; auto; exists []; auto].
    destruct (String.eqb_spec q p) as [->|Hne].
    - exfalso. destruct (should_track_true st p Hans) as [fi [Hfi Hlt]].
      specialize (Hcur fi Hfi). lia.
    - destruct st as [fs0 o ro c z ts mk lg rd]; cbn in *.
      split; [exact (nodup_keys_set _ _ _ Hnd)|].
      split; [rewrite dict_get_set_neq by exact Hne; exact Hnot|].
      split; [exact Hcur|]. exists n. auto. }
  destruct a as [q c|q|q|q|d|].
  - assert (Hne : q <> p) by (intros ->; exact (Ha c eq_refl)).
    cbn [run_action]. rewrite write_file_fs. cbn.
    split; [exact Hnd|]. split; [exact Hnot|].
    split; [intros fi Hfi; rewrite dict_get_set_neq in Hfi by exact Hne; exact (Hcur fi Hfi)|].
    exists []. auto.
  - cbn. split; [exact Hnd|]. split; [exact Hnot|].
    split; [|exists []; auto].
    intros fi Hfi. destruct (String.eqb_spec q p) as [->|Hne].
    + rewrite dict_get_pop_eq in Hfi. discriminate.
    + rewrite dict_get_pop_neq in Hfi by exact Hne. exact (Hcur fi Hfi).
  - exact (Hev q (or_introl eq_refl)).
  - exact (Hev q (or_intror eq_refl)).
  - cbn. split; [exact Hnd|]. split; [exact Hnot|]. split; [exact Hcur|]. exists []. auto.
  - cbn [run_action].
    assert (Hnr : ~ In p (ready_list h (clock st) (file_timestamps st))).
    { intros Hin. apply ready_list_incl in Hin. exact (in_keys_none _ _ Hnot Hin). }
    destruct (poll_frame h st Hnd) as (Efs & _ & Nd & Oth & _ & [n [El Hn]]).
    destruct (Oth p Hnr) as [Ets Emk].
    split; [exact Nd|]. split; [rewrite Ets; exact Hnot|].
    split; [intros fi Hfi; rewrite Efs in Hfi; rewrite (marker_eq _ _ p Emk); exact (Hcur fi Hfi)|].
    exists n. split; [exact El|]. rewrite Hn. exact (proj1 (count_occ_not_In string_dec _ p) Hnr).
Qed.

(** A path that is not in ActivityRecord and whose current mtime is at
    most its marker is never tracked or dispatched again while no other
    process writes it, whatever created and modified events (duplicates
    included), deletions of it, sleeps and polls come. *)
Theorem processed_file_not_requeued (h : Handler) (p : string) (st : State) (acts : list action)
  (Hnd : NoDup (dict_keys (file_timestamps st)))
  (Hnot : dict_get (file_timestamps st) p = None)
  (Hcur : forall fi, dict_get (fs st) p = Some fi -> f_mtime fi <= marker st p)
  (Hnw : forall c, ~ In (AWrite p c) acts) :
  dict_get (file_timestamps (run_seq h st acts)) p = None /\
  exists new, logs (run_seq h st acts) = app new (logs st) /\ dispatch_count p new = 0%nat.
Proof.
  revert st Hnd Hnot Hcur. induction acts as [|a r IH]; intros st Hnd Hnot Hcur; cbn [run_seq].
  - split; [exact Hnot|]. exists []. auto.
  - assert (Ha : forall c, a <> AWrite p c) by (intros c E; apply (Hnw c); left; congruence).
    destruct (action_not_requeued h p a st Ha Hnd Hnot Hcur) as (Nd1 & Ts1 & Cur1 & [n1 [El1 Hn1]]).
    destruct (IH (fun c Hin => Hnw c (or_intror Hin)) _ Nd1 Ts1 Cur1) as [Ts2 [n2 [El2 Hn2]]].
    split; [exact Ts2|]. exists (app n2 n1). rewrite El2, El1, app_assoc. split; [reflexivity|].
    rewrite dispatch_count_app, Hn1, Hn2. reflexivity.
Qed.

Lemma processed_file_not_requeued_witness :
  NoDup (dict_keys (file_timestamps requeue_state)) /\
  dict_get (file_timestamps requeue_state) "a.dat" = None /\
  (forall fi, dict_get (fs requeue_state) "a.dat" = Some fi -> f_mtime fi <= marker requeue_state "a.dat") /\
  dict_get (file_timestamps (run_seq ex_handler requeue_state requeue_acts)) "a.dat" = None.
Proof.
  assert (Hnd : NoDup (dict_keys (file_timestamps requeue_state))) by (vm_compute; constructor).
  assert (Hnot : dict_get (file_timestamps requeue_state) "a.dat" = None) by (vm_compute; reflexivity).
  assert (Hcur : forall fi, dict_get (fs requeue_state) "a.dat" = Some fi ->
                           f_mtime fi <= marker requeue_state "a.dat").
  { intros fi H. vm_compute in H. injection H as <-. vm_compute. discriminate. }
  split; [exact Hnd|]. split; [exact Hnot|]. split; [exact Hcur|].
  exact (proj1 (processed_file_not_requeued ex_handler "a.dat" requeue_state requeue_acts Hnd Hnot Hcur
                  ltac:(intros c [E|[E|[E|[E|[E|[E|[]]]]]]]; discriminate))).
Defined.

(** ** What one conversion writes *)

(** A conversion leaves the source directory, the clock, ActivityRecord and
    the markers alone, and of the output files it changes at most the
    LR.txt of the current local day, and only by appending. *)
Theorem convert_touches_only_todays_file (p base : string) (st : State) :
  core (snd (convert_lr_to_epic p base st)) = core st /\
  out_ro (snd (convert_lr_to_epic p base st)) = out_ro st /\
  (forall q, q <> output_file_path_of base (local_now st) ->
     dict_get (out (snd (convert_lr_to_epic p base st))) q = dict_get (out st) q) /\
  out_grows (out st) (out (snd (convert_lr_to_epic p base st))).
Proof.
  destruct (convert_effect p base st) as (_ & Ec & Ero & _ & Eo & _).
  split; [exact Ec|]. split; [exact Ero|]. split; [|apply convert_out_grows].
  intros q Hq. destruct Eo as [E|[data E]]; rewrite E; [reflexivity|].
  apply appended_get_neq. intros Eq. apply Hq. symmetry. exact Eq.
Qed.

(** ** Lines and fields *)


Lemma concat_cons_sep sep x t :
  String.concat sep (x :: t) = match t with [] => x | _ => x ++ sep ++ String.concat sep t end.
Proof. reflexivity. Qed.

Lemma split_on_nonempty sep s : split_on sep s <> [].
Proof.
  destruct s as [|c r]; cbn; [discriminate|].
  destruct (Ascii.eqb c sep); [discriminate|]. destruct (split_on sep r); discriminate.
Qed.

(** [split] on a one-character separator returns one more field than the
    separator occurs, and joining the fields with the separator gives the
    string back; so a line is converted only when its stripped form holds
    exactly one tab. *)
Theorem split_on_join (sep : ascii) (s : string) :
  String.concat (String sep EmptyString) (split_on sep s) = s /\
  length (split_on sep s) = S (length (filter (fun c => Ascii.eqb c sep) (list_ascii_of_string s))).
Proof.
  induction s as [|c r [IHc IHl]]; [split; reflexivity|].
  cbn [split_on list_ascii_of_string filter].
  destruct (Ascii.eqb_spec c sep) as [->|Hne].
  - split; [|cbn; rewrite IHl; reflexivity].
    rewrite concat_cons_sep. pose proof (split_on_nonempty sep r) as Hn.
    destruct (split_on sep r) as [|x t]; [contradiction|]. cbn. f_equal. exact IHc.
  - destruct (split_on sep r) as [|x t] eqn:E; [exfalso; exact (split_on_nonempty sep r E)|].
    split; [|exact IHl].
    rewrite concat_cons_sep. rewrite concat_cons_sep in IHc.
    destruct t; cbn; f_equal; exact IHc.
Qed.


Lemma translate_newlines_chars s x :
  In x (list_ascii_of_string (translate_newlines s)) ->
  (In x (list_ascii_of_string s) /\ x <> CR) \/ x = LF.
Proof.
  remember (String.length s) as n eqn:Hn. assert (Hle : (String.length s <= n)%nat) by lia. clear Hn.
  revert s Hle. induction n as [|n IH]; intros s Hle Hx.
  - destruct s; cbn in *; [contradiction | lia].
  - destruct s as [|c r]; [contradiction|]. cbn in Hle.
    cbn [translate_newlines] in Hx.
    destruct (Ascii.eqb_spec c "013"%char) as [Ec|Ec].
    + destruct r as [|c' r'].
      * cbn in Hx. destruct Hx as [<-|[]]. now right.
      * destruct (Ascii.eqb_spec c' "010"%char) as [Ec'|Ec'].
        -- cbn in Hx. destruct Hx as [<-|Hx]; [now right|].
           destruct (IH r' ltac:(cbn in Hle; lia) Hx) as [[Hin Hcr]|Hl]; [left|now right].
           split; [right; right; exact Hin | exact Hcr].
        -- cbn [list_ascii_of_string In] in Hx. destruct Hx as [<-|Hx]; [now right|].
           destruct (IH (String c' r') ltac:(lia) Hx) as [[Hin Hcr]|Hl]; [left|now right].
           split; [right; exact Hin | exact Hcr].
    + cbn [list_ascii_of_string In] in Hx. destruct Hx as [<-|Hx].
      * left. split; [now left | exact Ec].
      * destruct (IH r ltac:(lia) Hx) as [[Hin Hcr]|Hl]; [left|now right].
        split; [right; exact Hin | exact Hcr].
Qed.


Lemma concat_empty_cons x t : String.concat EmptyString (x :: t) = x ++ String.concat EmptyString t.
Proof. destruct t; cbn; [now rewrite str_app_nil_r | reflexivity]. Qed.

Lemma split_lines_keep_spec s :
  String.concat EmptyString (split_lines_keep s) = s /\
  lines_shape (split_lines_keep s) /\
  (forall l x, In l (split_lines_keep s) -> In x (list_ascii_of_string l) ->
               In x (list_ascii_of_string s)).
Proof.
  induction s as [|c r [IHc [[pre [last [E [Hpre Hlast]]]] IHin]]].
  - split; [reflexivity|]. split; [exists [], []; split; [reflexivity|]; split; [constructor|now left]|].
    intros l x [].
  - cbn [split_lines_keep].
    destruct (Ascii.eqb_spec c "010"%char) as [->|Hne].
    + split; [rewrite concat_empty_cons, IHc; reflexivity|].
      split.
      * exists (EmptyString :: pre), last. rewrite E. split; [reflexivity|].
        split; [constructor; [intros []|exact Hpre]|exact Hlast].
      * intros l x [<-|Hl] Hx; [destruct Hx as [<-|[]]; now left|]. right. exact (IHin l x Hl Hx).
    + assert (Hin' : forall l x, In l (split_lines_keep r) -> In x (list_ascii_of_string l) ->
                     In x (list_ascii_of_string (String c r))) by (intros; right; eauto).
      destruct (split_lines_keep r) as [|l0 t] eqn:Es.
      * split; [cbn in IHc; subst r; reflexivity|]. split.
        -- exists [], [String c EmptyString]. split; [reflexivity|]. split; [constructor|].
           right. exists (String c EmptyString). split; [reflexivity|]. split; [discriminate|].
           intros [E'|[]]. exact (Hne E').
        -- intros l x [<-|[]] [<-|[]]. now left.
      * split; [rewrite concat_empty_cons; rewrite concat_empty_cons in IHc; cbn; now f_equal|].
        split.
        -- destruct pre as [|b pre'].
           ++ destruct Hlast as [->|[b [-> [Hb Hnl]]]]; [discriminate|].
              cbn in E. injection E as -> ->.
              exists [], [String c b]. split; [reflexivity|]. split; [constructor|].
              right. exists (String c b). split; [reflexivity|]. split; [discriminate|].
              intros [E'|H']; [exact (Hne E')|exact (Hnl H')].
           ++ cbn in E. injection E as -> ->. inversion Hpre as [|? ? Hb Hpre']; subst.
              exists (String c b :: pre'), last. split; [reflexivity|].
              split; [constructor; [intros [E'|H']; [exact (Hne E')|exact (Hb H')]|exact Hpre']|].
              exact Hlast.
        -- intros l x [<-|Hl] Hx.
           ++ destruct Hx as [<-|Hx]; [now left|]. right. exact (IHin l0 x (or_introl eq_refl) Hx).
           ++ exact (Hin' l x (or_intror Hl) Hx).
Qed.

(** [readlines] cuts the newline-translated text into lines that join
    back to it; each line ends with its only \n except possibly a last
    non-empty line, and no line holds a \r. *)
Theorem readlines_lines (content : string) :
  String.concat EmptyString (readlines content) = translate_newlines content /\
  lines_shape (readlines content) /\
  (forall l, In l (readlines content) -> ~ In CR (list_ascii_of_string l)).
Proof.
  unfold readlines. destruct (split_lines_keep_spec (translate_newlines content)) as (A & B & C).
  split; [exact A|]. split; [exact B|].
  intros l Hl Hcr. destruct (translate_newlines_chars content CR (C l CR Hl Hcr)) as [[_ H]|H].
  - exact (H eq_refl).
  - discriminate.
Qed.

Lemma notab_spec s : notab s = true <-> forall x, In x (list_ascii_of_string s) -> x <> TAB.
Proof.
  unfold notab. rewrite forallb_forall. split; intros H x Hx; specialize (H x Hx).
  - intros ->. rewrite Ascii.eqb_refl in H. discriminate.
  - destruct (Ascii.eqb_spec x TAB); [contradiction | reflexivity].
Qed.

Lemma split_on_notab s : notab s = true -> split_on TAB s = [s].
Proof.
  rewrite notab_spec. induction s as [|c r IH]; intros H; [reflexivity|].
  cbn [split_on]. destruct (Ascii.eqb_spec c TAB) as [E|_].
  - exfalso. exact (H c (or_introl eq_refl) E).
  - rewrite IH; [reflexivity|]. intros x Hx. apply H. now right.
Qed.

Lemma lstrip_l_in l x : In x (lstrip_l l) -> In x l.
Proof.
  induction l as [|c r IH]; cbn; [tauto|]. destruct (is_space c); [intros Hx; right; auto|tauto].
Qed.

Lemma strip_notab s : notab s = true -> notab (strip s) = true.
Proof.
  rewrite !notab_spec. intros H x Hx. apply H.
  unfold strip, strip_l in Hx. rewrite list_ascii_of_string_of_list_ascii in Hx.
  apply in_rev, lstrip_l_in, in_rev, lstrip_l_in in Hx. exact Hx.
Qed.

Lemma convert_lines_notab fp b lines st :
  Forall (fun l => notab l = true) lines -> convert_lines fp b lines st = (inl [], st).
Proof.
  induction 1 as [|l r Hl _ IH]; [reflexivity|].
  cbn [convert_lines]. unfold bind, convert_line.
  rewrite (split_on_notab _ (strip_notab l Hl)). cbn. rewrite IH. reflexivity.
Qed.

Lemma readlines_notab c : notab c = true -> Forall (fun l => notab l = true) (readlines c).
Proof.
  intros Hc. apply Forall_forall. intros l Hl. apply notab_spec. intros x Hx E. subst x.
  destruct (split_lines_keep_spec (translate_newlines c)) as (_ & _ & Hin).
  destruct (translate_newlines_chars c TAB (Hin l TAB Hl Hx)) as [[H _]|H].
  - exact (proj1 (notab_spec c) Hc TAB H eq_refl).
  - discriminate.
Qed.

(** A readable source without any tab (an empty one included) converts to
    no line: the output file of the day gets only the header if it is new
    and is left as it was otherwise, and the log says "Appended 0 lines". *)
Theorem tabless_source_header_only (p base : string) (st : State) (fi : FileInfo)
  (Hfi : dict_get (fs st) p = Some fi) (Hok : f_stat_ok fi = true) (Hrd : f_readable fi = true)
  (Hct : in_datetime_range (f_ctime fi + tz st + EPOCH_DAYS * US_PER_DAY) = true)
  (Hnow : in_datetime_range (local_now st) = true)
  (Hw : existsb (String.eqb (output_file_path_of base (local_now st))) (out_ro st) = false)
  (Hnt : notab (f_content fi) = true) :
  let op := output_file_path_of base (local_now st) in
  let st' := snd (convert_lr_to_epic p base st) in
  out st' = appended (out st) op EmptyString /\
  dict_get (out st') op = Some (match dict_get (out st) op with
                                | Some c => c
                                | None => HEADER1 ++ HEADER2
                                end) /\
  logs st' = LogAppended 0 op :: logs st /\
  reads st' = (p, f_mtime fi) :: reads st.
Proof.
  intros op st'.
  assert (Ha : out st' = appended (out st) op EmptyString /\
               logs st' = LogAppended 0 op :: logs st /\ reads st' = (p, f_mtime fi) :: reads st).
  { subst st' op.
    unfold convert_lr_to_epic, try_except, bind, is_Exception, log, modify, getctime.
    rewrite Hfi, Hok. unfold fromtimestamp. rewrite Hct.
    unfold read_lines. rewrite Hfi, Hrd.
    set (st1 := set_reads (cons (p, f_mtime fi)) st).
    set (bt := f_ctime fi + tz st + EPOCH_DAYS * US_PER_DAY).
    rewrite (convert_lines_notab p bt (readlines (f_content fi)) st1 (readlines_notab _ Hnt)).
    unfold datetime_now, fromtimestamp.
    assert (Hc : clock st1 + tz st1 + EPOCH_DAYS * US_PER_DAY = local_now st) by reflexivity.
    rewrite Hc, Hnow.
    set (op := output_file_path_of base (local_now st)) in *.
    unfold isfile, gets, open_append.
    assert (Hro : out_ro st1 = out_ro st) by reflexivity.
    assert (Ho : out st1 = out st) by reflexivity.
    rewrite Hro, Ho, Hw.
    destruct (dict_get (out st) op) as [c|] eqn:Hop; cbn_io.
    - split; [|split; reflexivity]. unfold appended. rewrite Hop.
      unfold dict_get_default. rewrite Hop. reflexivity.
    - split; [|split; reflexivity]. unfold appended. rewrite Hop.
      unfold dict_get_default. rewrite Hop. rewrite !dict_get_set_eq, !dict_set_set. reflexivity. }
  destruct Ha as (A & B & C). split; [exact A|]. split; [|split; assumption].
  rewrite A. rewrite appended_get_eq.
  unfold dict_get_default. destruct (dict_get (out st) op); cbn; now rewrite ?str_app_nil_r.
Qed.

Lemma tabless_source_header_only_witness :
  logs (snd (convert_lr_to_epic "a.dat" "out" (ex_state tabless_text))) =
    LogAppended 0 ex_out_path :: logs (ex_state tabless_text) /\
  dict_get (out (snd (convert_lr_to_epic "a.dat" "out" (ex_state tabless_text)))) ex_out_path =
    Some (HEADER1 ++ HEADER2).
Proof.
  pose proof (tabless_source_header_only "a.dat" "out" (ex_state tabless_text) (ex_file tabless_text)
                ltac:(vm_compute; reflexivity) eq_refl eq_refl
                ltac:(vm_compute; reflexivity) ltac:(vm_compute; reflexivity)
                ltac:(vm_compute; reflexivity) ltac:(vm_compute; reflexivity)) as H.
  cbv zeta in H. destruct H as (_ & B & C & _).
  assert (Eop : output_file_path_of "out" (local_now (ex_state tabless_text)) = ex_out_path)
    by (vm_compute; reflexivity).
  rewrite Eop in B, C. split; [exact C|]. rewrite B. vm_compute. reflexivity.
Defined.

(** ** The output path *)

Lemma digit_ne_slash n : ascii_of_nat (Z.to_nat (n mod 10) + 48) <> "/"%char.
Proof.
  assert (Hk : (Z.to_nat (n mod 10) < 10)%nat).
  { pose proof (Z.mod_pos_bound n 10 ltac:(lia)). lia. }
  set (k := Z.to_nat (n mod 10)) in *. clearbody k.
  do 10 (destruct k as [|k]; [discriminate|]). lia.
Qed.

Lemma pad_first w n : exists x r, pad (S w) n = String x r /\ x <> "/"%char.
Proof.
  revert n. induction w as [|w IH]; intros n.
  - cbn [pad]. eexists _, EmptyString. split; [reflexivity|]. apply digit_ne_slash.
  - change (pad (S (S w)) n) with (pad (S w) (n / 10) ++ String (ascii_of_nat (Z.to_nat (n mod 10) + 48)) EmptyString).
    destruct (IH (n / 10)) as [x [r [E Hx]]]. rewrite E. exists x, (r ++ String (ascii_of_nat (Z.to_nat (n mod 10) + 48)) EmptyString).
    split; [reflexivity | exact Hx].
Qed.

Lemma pad_last w n : exists a d, pad (S w) n = a ++ String d EmptyString /\ d <> "/"%char.
Proof. exists (pad w (n / 10)), (ascii_of_nat (Z.to_nat (n mod 10) + 48)). split; [reflexivity|apply digit_ne_slash]. Qed.

Lemma prefix_slash x r : x <> "/"%char -> String.prefix "/" (String x r) = false.
Proof.
  intros Hx. cbn [String.prefix]. destruct (ascii_dec "/" x) as [E|_]; [congruence|reflexivity].
Qed.

Lemma substring_app_last a d : substring (String.length a) 1 (a ++ String d EmptyString) = String d EmptyString.
Proof. induction a as [|c a IH]; [reflexivity|]. cbn [String.length append]. exact IH. Qed.

Lemma str_length_app a b : String.length (a ++ b) = (String.length a + String.length b)%nat.
Proof. induction a as [|c a IH]; cbn; [reflexivity | now rewrite IH]. Qed.

Lemma endswith_slash_last a d : d <> "/"%char -> endswith (a ++ String d EmptyString) "/" = false.
Proof.
  intros Hd. unfold endswith. rewrite str_length_app. cbn [String.length].
  replace (String.length a + 1 - 1)%nat with (String.length a) by lia.
  rewrite substring_app_last. apply andb_false_intro2. apply String.eqb_neq.
  intros E. injection E as E. exact (Hd E).
Qed.

(** The output file is [<output_dir>/<YYYY>/<YYYY_MM_DD>/LR.txt] of the
    local date, joined as posixpath.join does. *)
Theorem output_path_layout (base : string) (now : Z) :
  output_file_path_of base now =
  (if String.eqb base EmptyString then EmptyString
   else if endswith base "/" then base else base ++ "/")
  ++ strftime_Y now ++ "/" ++ strftime_Y_m_d now ++ "/" ++ "LR.txt".
Proof.
  unfold output_file_path_of.
  destruct (pad_first 3 (dt_year (fields_of now))) as [x [r [Ey Hx]]].
  assert (Hy : String.prefix "/" (strftime_Y now) = false).
  { unfold strftime_Y. rewrite Ey. exact (prefix_slash x r Hx). }
  assert (Hd : String.prefix "/" (strftime_Y_m_d now) = false).
  { unfold strftime_Y_m_d. cbv zeta. rewrite Ey. exact (prefix_slash x _ Hx). }
  destruct (pad_last 3 (dt_year (fields_of now))) as [ay [dy [Ly Hdy]]].
  destruct (pad_last 1 (dt_day (fields_of now))) as [ad [dd [Ld Hdd]]].
  assert (Hey : forall s, endswith (s ++ strftime_Y now) "/" = false).
  { intros s. unfold strftime_Y. rewrite Ly, str_app_assoc. exact (endswith_slash_last _ _ Hdy). }
  assert (Hed : forall s, endswith (s ++ strftime_Y_m_d now) "/" = false).
  { intros s. unfold strftime_Y_m_d. cbv zeta. rewrite Ld, !str_app_assoc.
    exact (endswith_slash_last _ _ Hdd). }
  assert (Hne : forall s t, String.eqb (s ++ String x t) EmptyString = false).
  { intros s t. destruct s; reflexivity. }
  assert (HneY : forall s, String.eqb (s ++ strftime_Y now) EmptyString = false).
  { intros s. unfold strftime_Y. rewrite Ey. apply Hne. }
  assert (HneD : forall s, String.eqb (s ++ strftime_Y_m_d now) EmptyString = false).
  { intros s. unfold strftime_Y_m_d. cbv zeta. rewrite Ey. apply Hne. }
  set (Y := strftime_Y now) in *. set (D := strftime_Y_m_d now) in *. clearbody Y D.
  unfold path_join at 3. rewrite Hy.
  destruct (String.eqb_spec base EmptyString) as [->|Hb].
  - cbn [String.eqb]. change (EmptyString ++ Y) with Y.
    unfold path_join at 2. rewrite Hd.
    replace (String.eqb Y EmptyString) with false
      by (symmetry; exact (HneY EmptyString)).
    replace (endswith Y "/") with false by (symmetry; exact (Hey EmptyString)).
    unfold path_join. replace (String.prefix "/" "LR.txt") with false by reflexivity.
    replace (String.eqb (Y ++ "/" ++ D) EmptyString) with false
      by (symmetry; rewrite str_app_assoc; apply HneD).
    replace (endswith (Y ++ "/" ++ D) "/") with false
      by (symmetry; rewrite str_app_assoc; apply Hed).
    now rewrite <- !str_app_assoc.
  - replace (String.eqb base EmptyString) with false by (symmetry; now apply String.eqb_neq).
    set (B := if endswith base "/" then base else base ++ "/").
    assert (EB : (if endswith base "/" then base ++ Y else base ++ "/" ++ Y) = B ++ Y).
    { subst B. destruct (endswith base "/"); [reflexivity | now rewrite str_app_assoc]. }
    rewrite EB. clearbody B.
    unfold path_join at 2. rewrite Hd.
    replace (String.eqb (B ++ Y) EmptyString) with false by (symmetry; apply HneY).
    replace (endswith (B ++ Y) "/") with false by (symmetry; apply Hey).
    unfold path_join. replace (String.prefix "/" "LR.txt") with false by reflexivity.
    replace (String.eqb ((B ++ Y) ++ "/" ++ D) EmptyString) with false
      by (symmetry; rewrite !str_app_assoc; apply HneD).
    replace (endswith ((B ++ Y) ++ "/" ++ D) "/") with false
      by (symmetry; rewrite !str_app_assoc; apply Hed).
    now rewrite <- !str_app_assoc.
Qed.
